(** * sh7372 power management: power domains and core standby

    A shallow embedding of [arch/arm/mach-shmobile/pm-sh7372.c].

    The driver talks to memory-mapped registers whose contents change under
    the hardware's control, so every register access is an interaction with
    an abstract machine.  The functions of the file are written in a small
    monad that threads the machine state and records, in program order,
    every access, delay, debug message and call to a collaborator. *)

From Stdlib Require Import String ZArith List Bool Lia.
Import ListNotations.
Local Open Scope Z_scope.

(** ** Register map and constants (lines 27-37, 315-316) *)

Definition SMFRAM : Z := 0xe6a70000.
Definition SYSTBCR : Z := 0xe6150024.
Definition SBAR : Z := 0xe6180020.
Definition APARMBAREA : Z := 0xe6f10020.

Definition SPDCR : Z := 0xe6180008.
Definition SWUCR : Z := 0xe6180014.
Definition PSTR : Z := 0xe6180080.

Definition PSTR_RETRIES : nat := 100.
Definition PSTR_DELAY_US : Z := 10.

Definition EIO : Z := 5.

(** [unsigned int] is 32 bits wide on this platform. *)
Definition u32 (x : Z) : Z := x mod 2 ^ 32.

(** ** Domain descriptors

    The fields of [struct sh7372_pm_domain] that the functions below read.
    The [suspend] and [resume] function pointers of the C struct are never
    called in this file and are left out. *)

Inductive dev_power_governor := sh7372_always_on_gov.

Record sh7372_pm_domain := {
  genpd_name : string;
  bit_shift : Z;
  gov : option dev_power_governor;
  no_debug : bool;
  stay_on : bool
}.

Definition sh7372_a4lc : sh7372_pm_domain :=
  {| genpd_name := "A4LC"%string; bit_shift := 1; gov := None;
     no_debug := false; stay_on := false |}.

Definition sh7372_a4mp : sh7372_pm_domain :=
  {| genpd_name := "A4MP"%string; bit_shift := 2; gov := None;
     no_debug := false; stay_on := false |}.

Definition sh7372_d4 : sh7372_pm_domain :=
  {| genpd_name := "D4"%string; bit_shift := 3; gov := None;
     no_debug := false; stay_on := false |}.

Definition sh7372_a4r : sh7372_pm_domain :=
  {| genpd_name := "A4R"%string; bit_shift := 5;
     gov := Some sh7372_always_on_gov;
     no_debug := false; stay_on := true |}.

Definition sh7372_a3rv : sh7372_pm_domain :=
  {| genpd_name := "A3RV"%string; bit_shift := 6; gov := None;
     no_debug := false; stay_on := false |}.

Definition sh7372_a3ri : sh7372_pm_domain :=
  {| genpd_name := "A3RI"%string; bit_shift := 8; gov := None;
     no_debug := false; stay_on := false |}.

Definition sh7372_a3sp : sh7372_pm_domain :=
  {| genpd_name := "A3SP"%string; bit_shift := 11;
     gov := Some sh7372_always_on_gov;
     no_debug := true; stay_on := false |}.

Definition sh7372_a3sg : sh7372_pm_domain :=
  {| genpd_name := "A3SG"%string; bit_shift := 13; gov := None;
     no_debug := false; stay_on := false |}.

(** [unsigned int mask = 1 << sh7372_pd->bit_shift;]  The domains of this
    file have shifts from 1 to 13.  A shift of 32 or more is undefined in C;
    here it gives the mask 0. *)
Definition domain_mask (pd : sh7372_pm_domain) : Z :=
  u32 (Z.shiftl 1 (bit_shift pd)).

(** ** Observable events *)

(** The three [pr_debug] format strings of the file. *)
Inductive debug_msg :=
| MsgPowerOff    (* "%s: Power off, 0x%08x -> PSTR = 0x%08x\n" *)
| MsgPowerOn     (* "%s: Power on, 0x%08x -> PSTR = 0x%08x\n" *)
| MsgDomainUp.   (* "sh7372 power domain up 0x%08x -> PSTR = 0x%08x\n" *)

Inductive event :=
| EvReadl (addr val : Z)
| EvWritel (val addr : Z)
| EvUdelay (usecs : Z)
| EvCpuRelax
| EvPrDebug (msg : debug_msg) (name : option string) (mask pstr : Z)
| EvGenpdPoweron (name : string) (ret : Z)
| EvGenpdQueuePowerOffWork (name : string)
| EvOpsStop (dev : string) (ret : Z)
| EvOpsStart (dev : string) (ret : Z)
| EvPmClkSuspend (dev : string) (ret : Z)
| EvPmClkResume (dev : string) (ret : Z)
| EvCpuSuspend
| EvCpuInit
| EvFlushTlbAll
| EvSetCr (val : Z).

Definition trace := list event.

(** Values read from register [a], in program order. *)
Fixpoint reads_of (a : Z) (tr : trace) : list Z :=
  match tr with
  | [] => []
  | EvReadl a' v :: tr' =>
      if a' =? a then v :: reads_of a tr' else reads_of a tr'
  | _ :: tr' => reads_of a tr'
  end.

(** Every register write, as (value, address), in program order. *)
Fixpoint writes (tr : trace) : list (Z * Z) :=
  match tr with
  | [] => []
  | EvWritel v a :: tr' => (v, a) :: writes tr'
  | _ :: tr' => writes tr'
  end.

(** The delay steps between polls. *)
Fixpoint delays (tr : trace) : trace :=
  match tr with
  | [] => []
  | EvUdelay us :: tr' => EvUdelay us :: delays tr'
  | EvCpuRelax :: tr' => EvCpuRelax :: delays tr'
  | _ :: tr' => delays tr'
  end.

(** Microseconds spent in [udelay]. *)
Fixpoint total_udelay (tr : trace) : Z :=
  match tr with
  | [] => 0
  | EvUdelay us :: tr' => us + total_udelay tr'
  | _ :: tr' => total_udelay tr'
  end.

Definition is_pr_debug (e : event) : bool :=
  match e with EvPrDebug _ _ _ _ => true | _ => false end.

Definition is_genpd_call (e : event) : bool :=
  match e with
  | EvGenpdPoweron _ _ | EvGenpdQueuePowerOffWork _ => true
  | _ => false
  end.

(** ** The machine

    Everything the file reaches outside itself, over a machine state [H]:
    the register port, the CPU primitives, and the generic power-domain and
    clock frameworks.  A read may change the state (time passes, hardware
    self-clears a request bit). *)

Record reg_port (H : Type) := {
  port_readl : Z -> H -> Z * H;
  port_writel : Z -> Z -> H -> H;      (* value, then address *)
  port_udelay : Z -> H -> H;
  port_cpu_relax : H -> H
}.
Arguments port_readl {H}.
Arguments port_writel {H}.
Arguments port_udelay {H}.
Arguments port_cpu_relax {H}.

(** A platform device as seen by the stop/start adapter:
    [dev_gpd_data(dev)->ops.stop] and [.start] may be NULL. *)
Record device (H : Type) := {
  dev_name : string;
  ops_stop : option (H -> Z * H);
  ops_start : option (H -> Z * H)
}.
Arguments dev_name {H}.
Arguments ops_stop {H}.
Arguments ops_start {H}.

Record genpd_framework (H : Type) := {
  fw_pm_genpd_poweron : sh7372_pm_domain -> H -> Z * H;
  fw_genpd_queue_power_off_work : sh7372_pm_domain -> H -> H;
  fw_pm_clk_suspend : device H -> H -> Z * H;
  fw_pm_clk_resume : device H -> H -> Z * H
}.
Arguments fw_pm_genpd_poweron {H}.
Arguments fw_genpd_queue_power_off_work {H}.
Arguments fw_pm_clk_suspend {H}.
Arguments fw_pm_clk_resume {H}.

Record cpu_ops (H : Type) := {
  cpu_sh7372_cpu_suspend : H -> H;
  cpu_cpu_init : H -> H;
  cpu_flush_tlb_all : H -> H;
  cpu_set_cr : Z -> H -> H;
  cpu_va : Z -> Z;                     (* __va() *)
  cpu_resume_pa : Z                    (* __pa(sh7372_cpu_resume) *)
}.
Arguments cpu_sh7372_cpu_suspend {H}.
Arguments cpu_cpu_init {H}.
Arguments cpu_flush_tlb_all {H}.
Arguments cpu_set_cr {H}.
Arguments cpu_va {H}.
Arguments cpu_resume_pa {H}.

(** ** The monad: machine state in, result, machine state and trace out *)

Definition M (H A : Type) : Type := H -> A * H * trace.

Definition ret {H A} (a : A) : M H A := fun s => (a, s, []).

Definition bind {H A B} (m : M H A) (f : A -> M H B) : M H B :=
  fun s =>
    let '(a, s1, t1) := m s in
    let '(b, s2, t2) := f a s1 in
    (b, s2, t1 ++ t2).

Definition result {H A} (r : A * H * trace) : A := fst (fst r).
Definition final {H A} (r : A * H * trace) : H := snd (fst r).
Definition events {H A} (r : A * H * trace) : trace := snd r.

Declare Scope drv_scope.
Delimit Scope drv_scope with drv.
Notation "x <- m ; k" := (bind m (fun x => k))
  (at level 61, m at next level, right associativity) : drv_scope.
Notation "m ;; k" := (bind m (fun _ => k))
  (at level 61, right associativity) : drv_scope.
Local Open Scope drv_scope.

Section Driver.

Context {H : Type}.
Variable P : reg_port H.

(** *** Primitives *)

Definition __raw_readl (a : Z) : M H Z :=
  fun s => let '(v, s') := port_readl P a s in (u32 v, s', [EvReadl a (u32 v)]).

Definition __raw_writel (v a : Z) : M H unit :=
  fun s => (tt, port_writel P v a s, [EvWritel v a]).

Definition udelay (us : Z) : M H unit :=
  fun s => (tt, port_udelay P us s, [EvUdelay us]).

Definition cpu_relax : M H unit :=
  fun s => (tt, port_cpu_relax P s, [EvCpuRelax]).

Definition pr_debug (msg : debug_msg) (name : option string) (mask pstr : Z)
  : M H unit :=
  fun s => (tt, s, [EvPrDebug msg name mask pstr]).

(** *** pd_power_down (lines 41-63) *)

(** The [for] loop of lines 51-55; the result tells whether it left by
    [break]. *)
Fixpoint pd_power_down_poll (mask : Z) (retry_count : nat) : M H bool :=
  match retry_count with
  | O => ret false
  | S n =>
      v <- __raw_readl SPDCR;
      if Z.land v mask =? 0 then ret true
      else cpu_relax;; pd_power_down_poll mask n
  end.

Definition pd_power_down (pd : sh7372_pm_domain) : M H Z :=
  let mask := domain_mask pd in
  v <- __raw_readl PSTR;
  (if negb (Z.land v mask =? 0) then
     __raw_writel mask SPDCR;;
     pd_power_down_poll mask PSTR_RETRIES;;
     ret tt
   else ret tt);;
  (if negb (no_debug pd) then
     pstr <- __raw_readl PSTR;
     pr_debug MsgPowerOff (Some (genpd_name pd)) mask pstr
   else ret tt);;
  ret 0.

(** *** pd_power_up (lines 65-97) *)

(** The [for] loop of lines 77-84; [true] when it left by [goto out]. *)
Fixpoint pd_power_up_poll (mask : Z) (retry_count : nat) : M H bool :=
  match retry_count with
  | O => ret false
  | S n =>
      v <- __raw_readl SWUCR;
      if Z.land v mask =? 0 then ret true
      else
        (if (PSTR_RETRIES <? retry_count)%nat
         then udelay PSTR_DELAY_US
         else cpu_relax);;
        pd_power_up_poll mask n
  end.

(** The code from the label [out:] on (lines 92-96). *)
Definition pd_power_up_out (mask : Z) (r : Z) : M H Z :=
  pstr <- __raw_readl PSTR;
  pr_debug MsgDomainUp None mask pstr;;
  ret r.

Definition pd_power_up (pd : sh7372_pm_domain) : M H Z :=
  let mask := domain_mask pd in
  v <- __raw_readl PSTR;
  if negb (Z.land v mask =? 0) then pd_power_up_out mask 0
  else
    __raw_writel mask SWUCR;;
    cleared <- pd_power_up_poll mask (2 * PSTR_RETRIES);
    if (cleared : bool) then pd_power_up_out mask 0
    else
      v' <- __raw_readl SWUCR;
      let r := if negb (Z.land v' mask =? 0) then - EIO else 0 in
      (if negb (no_debug pd) then
         pstr <- __raw_readl PSTR;
         pr_debug MsgPowerOn (Some (genpd_name pd)) mask pstr
       else ret tt);;
      pd_power_up_out mask r.

(** *** The A3RV / A4LC dependency (lines 99-117) *)

Variable F : genpd_framework H.

Definition pm_genpd_poweron (pd : sh7372_pm_domain) : M H Z :=
  fun s =>
    let '(r, s') := fw_pm_genpd_poweron F pd s in
    (r, s', [EvGenpdPoweron (genpd_name pd) r]).

Definition genpd_queue_power_off_work (pd : sh7372_pm_domain) : M H unit :=
  fun s =>
    (tt, fw_genpd_queue_power_off_work F pd s,
     [EvGenpdQueuePowerOffWork (genpd_name pd)]).

Definition pd_power_up_a3rv (genpd : sh7372_pm_domain) : M H Z :=
  r <- pd_power_up genpd;
  (* force A4LC on after A3RV has been requested on *)
  pm_genpd_poweron sh7372_a4lc;;
  ret r.

Definition pd_power_down_a3rv (genpd : sh7372_pm_domain) : M H Z :=
  r <- pd_power_down genpd;
  (* try to power down A4LC after A3RV is requested off *)
  genpd_queue_power_off_work sh7372_a4lc;;
  ret r.

(** *** Device stop/start (lines 137-164) *)

Definition pm_clk_suspend (dev : device H) : M H Z :=
  fun s =>
    let '(r, s') := fw_pm_clk_suspend F dev s in
    (r, s', [EvPmClkSuspend (dev_name dev) r]).

Definition pm_clk_resume (dev : device H) : M H Z :=
  fun s =>
    let '(r, s') := fw_pm_clk_resume F dev s in
    (r, s', [EvPmClkResume (dev_name dev) r]).

Definition call_stop (dev : device H) (stop : H -> Z * H) : M H Z :=
  fun s => let '(r, s') := stop s in (r, s', [EvOpsStop (dev_name dev) r]).

Definition call_start (dev : device H) (start : H -> Z * H) : M H Z :=
  fun s => let '(r, s') := start s in (r, s', [EvOpsStart (dev_name dev) r]).

Definition sh7372_stop_dev (dev : device H) : M H Z :=
  match ops_stop dev with
  | Some stop =>
      r <- call_stop dev stop;
      if negb (r =? 0) then ret r else pm_clk_suspend dev
  | None => pm_clk_suspend dev
  end.

Definition sh7372_start_dev (dev : device H) : M H Z :=
  r <- pm_clk_resume dev;
  if negb (r =? 0) then ret r
  else
    match ops_start dev with
    | Some start => call_start dev start
    | None => ret r
    end.

(** *** Core standby (lines 247-271) *)

Variable C : cpu_ops H.

Definition sh7372_cpu_suspend : M H unit :=
  fun s => (tt, cpu_sh7372_cpu_suspend C s, [EvCpuSuspend]).

Definition cpu_init : M H unit :=
  fun s => (tt, cpu_cpu_init C s, [EvCpuInit]).

Definition flush_tlb_all : M H unit :=
  fun s => (tt, cpu_flush_tlb_all C s, [EvFlushTlbAll]).

Definition set_cr (v : Z) : M H unit :=
  fun s => (tt, cpu_set_cr C v s, [EvSetCr v]).

(** Lines 251-258: arm the reset vector, clear the marker, sleep, and
    re-initialise the core once execution resumes. *)
Definition core_standby_sleep (smfram : Z) : M H unit :=
  __raw_writel 0 APARMBAREA;;              (* translate 4k *)
  __raw_writel (cpu_resume_pa C) SBAR;;    (* set reset vector *)
  __raw_writel 0x10 SYSTBCR;;              (* enable core standby *)
  __raw_writel 0 (smfram + 0x3c);;         (* clear page table address *)
  sh7372_cpu_suspend;;
  cpu_init.

(** Lines 260-267.  The value argument of the restoring write is read
    before its address argument. *)
Definition core_standby_recover (smfram : Z) : M H unit :=
  marker <- __raw_readl (smfram + 0x3c);
  if negb (marker =? 0) then
    v <- __raw_readl (smfram + 0x40);
    a <- __raw_readl (smfram + 0x3c);
    __raw_writel v (cpu_va C a);;
    flush_tlb_all;;
    cr <- __raw_readl (smfram + 0x38);
    set_cr cr
  else ret tt.

Definition sh7372_enter_core_standby : M H unit :=
  let smfram := SMFRAM in
  core_standby_sleep smfram;;
  core_standby_recover smfram;;
  __raw_writel 0 SYSTBCR;;                 (* disable core standby *)
  __raw_writel 0 SBAR.             (* disable reset vector translation *)

End Driver.

Arguments sh7372_cpu_suspend {H} C.
Arguments cpu_init {H} C.
Arguments flush_tlb_all {H} C.
Arguments set_cr {H} C.
Arguments pm_genpd_poweron {H} F.
Arguments genpd_queue_power_off_work {H} F.
Arguments pm_clk_suspend {H} F.
Arguments pm_clk_resume {H} F.
Arguments sh7372_stop_dev {H} F.
Arguments sh7372_start_dev {H} F.

(** ** What the polling loop of [pd_power_up] is expected to do

    Polls are numbered from 1.  A poll that still sees the request bit is
    followed by a 10 microsecond delay when it is one of the first hundred,
    and by a bare [cpu_relax] afterwards. *)

Definition delay_after_poll (k : nat) : event :=
  if (k <=? 100)%nat then EvUdelay 10 else EvCpuRelax.

Fixpoint poll_schedule (mask : Z) (k : nat) (polls : list Z) : trace :=
  match polls with
  | [] => []
  | v :: rest =>
      EvReadl SWUCR v
        :: (if Z.land v mask =? 0 then [] else [delay_after_poll k])
        ++ poll_schedule mask (S k) rest
  end.

Definition bit_set (mask v : Z) : Prop := Z.land v mask <> 0.
Definition bit_clear (mask v : Z) : Prop := Z.land v mask = 0.

(** ** A simulated SoC

    A register bank for exercising the driver: [PSTR], [SPDCR] and [SWUCR],
    a word-addressed retained memory, and the CPU's control register.  A
    pending request is acknowledged by the read that finds [sim_countdown]
    at zero; with [None] the hardware never acknowledges. *)

Record sim := {
  sim_pstr : Z;
  sim_spdcr : Z;
  sim_swucr : Z;
  sim_countdown : option nat;
  sim_ram : list (Z * Z);
  sim_cr : Z
}.

Fixpoint ram_lookup (a : Z) (ram : list (Z * Z)) : Z :=
  match ram with
  | [] => 0
  | (a', v) :: rest => if a' =? a then v else ram_lookup a rest
  end.

Definition sim_readl (a : Z) (s : sim) : Z * sim :=
  if a =? PSTR then (sim_pstr s, s)
  else if a =? SWUCR then
    match sim_countdown s with
    | None => (sim_swucr s, s)
    | Some (S k) =>
        (sim_swucr s,
         {| sim_pstr := sim_pstr s; sim_spdcr := sim_spdcr s;
            sim_swucr := sim_swucr s; sim_countdown := Some k;
            sim_ram := sim_ram s; sim_cr := sim_cr s |})
    | Some O =>
        (0,
         {| sim_pstr := Z.lor (sim_pstr s) (sim_swucr s);
            sim_spdcr := sim_spdcr s;
            sim_swucr := 0; sim_countdown := Some O;
            sim_ram := sim_ram s; sim_cr := sim_cr s |})
    end
  else if a =? SPDCR then
    match sim_countdown s with
    | None => (sim_spdcr s, s)
    | Some (S k) =>
        (sim_spdcr s,
         {| sim_pstr := sim_pstr s; sim_spdcr := sim_spdcr s;
            sim_swucr := sim_swucr s; sim_countdown := Some k;
            sim_ram := sim_ram s; sim_cr := sim_cr s |})
    | Some O =>
        (0,
         {| sim_pstr := Z.ldiff (sim_pstr s) (sim_spdcr s);
            sim_spdcr := 0;
            sim_swucr := sim_swucr s; sim_countdown := Some O;
            sim_ram := sim_ram s; sim_cr := sim_cr s |})
    end
  else (ram_lookup a (sim_ram s), s).

Definition sim_writel (v a : Z) (s : sim) : sim :=
  if a =? SWUCR then
    {| sim_pstr := sim_pstr s; sim_spdcr := sim_spdcr s;
       sim_swucr := Z.lor (sim_swucr s) v; sim_countdown := sim_countdown s;
       sim_ram := sim_ram s; sim_cr := sim_cr s |}
  else if a =? SPDCR then
    {| sim_pstr := sim_pstr s; sim_spdcr := Z.lor (sim_spdcr s) v;
       sim_swucr := sim_swucr s; sim_countdown := sim_countdown s;
       sim_ram := sim_ram s; sim_cr := sim_cr s |}
  else
    {| sim_pstr := sim_pstr s; sim_spdcr := sim_spdcr s;
       sim_swucr := sim_swucr s; sim_countdown := sim_countdown s;
       sim_ram := (a, v) :: sim_ram s; sim_cr := sim_cr s |}.

Definition sim_port : reg_port sim :=
  {| port_readl := sim_readl;
     port_writel := sim_writel;
     port_udelay := fun _ s => s;
     port_cpu_relax := fun s => s |}.

(** All domains off; the hardware acknowledges after [n] polls
    ([None]: never). *)
Definition sim_off (n : option nat) : sim :=
  {| sim_pstr := 0; sim_spdcr := 0; sim_swucr := 0; sim_countdown := n;
     sim_ram := []; sim_cr := 0 |}.

(** Domains [pstr] on. *)
Definition sim_on (pstr : Z) (n : option nat) : sim :=
  {| sim_pstr := pstr; sim_spdcr := 0; sim_swucr := 0; sim_countdown := n;
     sim_ram := []; sim_cr := 0 |}.

(** A framework whose [pm_genpd_poweron] runs the domain's [power_on]
    callback, which [sh7372_init_pm_domain] sets to [pd_power_up]; the
    clock operations fail with the codes given. *)
Definition sim_framework (clk_suspend_ret clk_resume_ret : Z)
  : genpd_framework sim :=
  {| fw_pm_genpd_poweron := fun pd s => fst (pd_power_up sim_port pd s);
     fw_genpd_queue_power_off_work := fun _ s => s;
     fw_pm_clk_suspend := fun _ s => (clk_suspend_ret, s);
     fw_pm_clk_resume := fun _ s => (clk_resume_ret, s) |}.

Definition sim_hook (r : Z) (s : sim) : Z * sim := (r, s).

Definition sim_device (stop start : option Z) : device sim :=
  {| dev_name := "sh-sci.0"%string;
     ops_stop := option_map sim_hook stop;
     ops_start := option_map sim_hook start |}.

(** A core that resumes in place (clock gated) ... *)
Definition sim_cpu_gated : cpu_ops sim :=
  {| cpu_sh7372_cpu_suspend := fun s => s;
     cpu_cpu_init := fun s => s;
     cpu_flush_tlb_all := fun s => s;
     cpu_set_cr := fun v s =>
       {| sim_pstr := sim_pstr s; sim_spdcr := sim_spdcr s;
          sim_swucr := sim_swucr s; sim_countdown := sim_countdown s;
          sim_ram := sim_ram s; sim_cr := v |};
     cpu_va := fun pa => u32 (pa - 0x40000000 + 0xc0000000);
     cpu_resume_pa := 0x40008000 |}.


(** ** The rest of the file

    The domains declared on lines 191-243, in source order. *)

Definition sh7372_domains : list sh7372_pm_domain :=
  [sh7372_a4lc; sh7372_a4mp; sh7372_d4; sh7372_a4r;
   sh7372_a3rv; sh7372_a3ri; sh7372_a3sp; sh7372_a3sg].

(** [sh7372_a3sp_init] (lines 232-238), as a function of the descriptor and
    of [console_suspend_enabled]. *)
Definition sh7372_a3sp_init (console_suspend_enabled : bool)
    (a3sp : sh7372_pm_domain) : sh7372_pm_domain :=
  {| genpd_name := genpd_name a3sp; bit_shift := bit_shift a3sp;
     gov := gov a3sp; no_debug := no_debug a3sp;
     stay_on := negb console_suspend_enabled |}.

Section Suspend.

Context {H : Type}.
Variables (P : reg_port H) (C : cpu_ops H).

(** [sh7372_enter_suspend] (lines 301-305); [suspend_state_t] is an
    [int]. *)
Definition sh7372_enter_suspend (suspend_state : Z) : M H Z :=
  sh7372_enter_core_standby P C;;
  ret 0.

End Suspend.

(** *** CPU idle (lines 274-290)

    [struct cpuidle_state] and [struct cpuidle_device] with the fields that
    [sh7372_cpuidle_setup] assigns or reads.  The lengths of the [name] and
    [desc] arrays and the flag bit come from [linux/cpuidle.h] and are
    parameters. *)

Module Cpuidle.

Record cpuidle_state := {
  name : string;
  desc : string;
  flags : Z;
  exit_latency : Z;
  power_usage : Z;
  target_residency : Z
}.

Record cpuidle_device := {
  states : list cpuidle_state;
  state_count : Z
}.

End Cpuidle.

(** [a[i] = x] on an array held as a list.  An index outside the array is
    undefined behaviour in C; here it leaves the list as it is. *)
Fixpoint array_set {A} (a : list A) (i : nat) (x : A) : list A :=
  match a, i with
  | [], _ => []
  | _ :: rest, O => x :: rest
  | y :: rest, S j => y :: array_set rest j x
  end.

(** The C string left in a buffer of [size] bytes by
    [snprintf(buf, size, src)]: at most [size - 1] characters; nothing is
    written when [size] is 0. *)
Definition snprintf (old : string) (size : nat) (src : string) : string :=
  match size with
  | O => old
  | S k => substring 0 k src
  end.

(** The characters [strncpy(dest, src, n)] stores: at most [n], and when
    [src] has [n] or more the array is left without a terminator. *)
Definition strncpy (n : nat) (src : string) : string := substring 0 n src.

Section CpuidleSetup.

Context {H : Type}.
Variables (P : reg_port H) (C : cpu_ops H).
Variables (CPUIDLE_NAME_LEN CPUIDLE_DESC_LEN : nat).
Variable CPUIDLE_FLAG_TIME_VALID : Z.

(** The device and the global table [shmobile_cpuidle_modes] go in and
    come out.  With [state_count] outside the [states] array the C code is
    undefined; here it then changes nothing. *)
Definition sh7372_cpuidle_setup
    (dev : Cpuidle.cpuidle_device) (shmobile_cpuidle_modes : list (M H unit))
  : Cpuidle.cpuidle_device * list (M H unit) :=
  let i := Cpuidle.state_count dev in
  match (if 0 <=? i then nth_error (Cpuidle.states dev) (Z.to_nat i)
         else None) with
  | None => (dev, shmobile_cpuidle_modes)
  | Some old =>
      let state :=
        {| Cpuidle.name :=
             snprintf (Cpuidle.name old) CPUIDLE_NAME_LEN "C2";
           Cpuidle.desc := strncpy CPUIDLE_DESC_LEN "Core Standby Mode";
           Cpuidle.exit_latency := 10;
           Cpuidle.target_residency := 20 + 10;
           Cpuidle.power_usage := 1;   (* perhaps not *)
           Cpuidle.flags := Z.lor 0 CPUIDLE_FLAG_TIME_VALID |} in
      ({| Cpuidle.states :=
            array_set (Cpuidle.states dev) (Z.to_nat i) state;
          Cpuidle.state_count := i + 1 |},
       array_set shmobile_cpuidle_modes (Z.to_nat i)
         (sh7372_enter_core_standby P C))
  end.

End CpuidleSetup.

(** *** Vocabulary for the properties below *)

(** What a failed poll of the power-down loop is followed by. *)
Fixpoint spdcr_schedule (mask : Z) (polls : list Z) : trace :=
  match polls with
  | [] => []
  | v :: rest =>
      EvReadl SPDCR v
        :: (if Z.land v mask =? 0 then [] else [EvCpuRelax])
        ++ spdcr_schedule mask rest
  end.

(** The events a power-down of [pd] may produce ... *)
Definition pd_power_down_event (pd : sh7372_pm_domain) (e : event) : bool :=
  match e with
  | EvReadl a _ => (a =? PSTR) || (a =? SPDCR)
  | EvWritel v a => (v =? domain_mask pd) && (a =? SPDCR)
  | EvCpuRelax => true
  | EvPrDebug MsgPowerOff (Some n) m _ =>
      String.eqb n (genpd_name pd) && (m =? domain_mask pd)
      && negb (no_debug pd)
  | _ => false
  end.

(** ... and a power-up. *)
Definition pd_power_up_event (pd : sh7372_pm_domain) (e : event) : bool :=
  match e with
  | EvReadl a _ => (a =? PSTR) || (a =? SWUCR)
  | EvWritel v a => (v =? domain_mask pd) && (a =? SWUCR)
  | EvUdelay us => us =? PSTR_DELAY_US
  | EvCpuRelax => true
  | EvPrDebug MsgPowerOn (Some n) m _ =>
      String.eqb n (genpd_name pd) && (m =? domain_mask pd)
      && negb (no_debug pd)
  | EvPrDebug MsgDomainUp None m _ => m =? domain_mask pd
  | _ => false
  end.

Definition is_power_on_msg (e : event) : bool :=
  match e with EvPrDebug MsgPowerOn _ _ _ => true | _ => false end.

(** ** Laws of the monad and of the trace projections *)

Section Laws.

Context {H : Type}.

Lemma bind_result {A B} (m : M H A) (f : A -> M H B) s :
  result (bind m f s) = result (f (result (m s)) (final (m s))).
Proof.
  unfold bind, result, final.
  destruct (m s) as [[a s1] t1]; cbn.
  destruct (f a s1) as [[b s2] t2]; reflexivity.
Qed.

Lemma bind_final {A B} (m : M H A) (f : A -> M H B) s :
  final (bind m f s) = final (f (result (m s)) (final (m s))).
Proof.
  unfold bind, result, final.
  destruct (m s) as [[a s1] t1]; cbn.
  destruct (f a s1) as [[b s2] t2]; reflexivity.
Qed.

Lemma bind_events {A B} (m : M H A) (f : A -> M H B) s :
  events (bind m f s)
  = events (m s) ++ events (f (result (m s)) (final (m s))).
Proof.
  unfold bind, result, final, events.
  destruct (m s) as [[a s1] t1]; cbn.
  destruct (f a s1) as [[b s2] t2]; reflexivity.
Qed.

Lemma readl_events (P : reg_port H) a s :
  events (__raw_readl P a s) = [EvReadl a (result (__raw_readl P a s))].
Proof.
  unfold __raw_readl, events, result.
  destruct (port_readl P a s); reflexivity.
Qed.



End Laws.

Lemma reads_of_app a t1 t2 :
  reads_of a (t1 ++ t2) = reads_of a t1 ++ reads_of a t2.
Proof.
  induction t1 as [|e t1 IH]; [reflexivity|].
  destruct e; cbn; auto.
  destruct (addr =? a); cbn; now rewrite IH.
Qed.

Lemma writes_app t1 t2 : writes (t1 ++ t2) = writes t1 ++ writes t2.
Proof.
  induction t1 as [|e t1 IH]; [reflexivity|].
  destruct e; cbn; auto. now rewrite IH.
Qed.

Lemma delays_app t1 t2 : delays (t1 ++ t2) = delays t1 ++ delays t2.
Proof.
  induction t1 as [|e t1 IH]; [reflexivity|].
  destruct e; cbn; auto; now rewrite IH.
Qed.

Lemma total_udelay_app t1 t2 :
  total_udelay (t1 ++ t2) = total_udelay t1 + total_udelay t2.
Proof.
  induction t1 as [|e t1 IH]; [reflexivity|].
  destruct e; cbn [app total_udelay]; auto. lia.
Qed.

(** ** The polling loops *)

Section Polling.

Context {H : Type}.
Variable P : reg_port H.

Lemma pd_power_up_poll_step mask n s :
  pd_power_up_poll P mask (S n) s
  = bind (__raw_readl P SWUCR)
      (fun v =>
         if Z.land v mask =? 0 then ret true
         else bind (if (PSTR_RETRIES <? S n)%nat
                    then udelay P PSTR_DELAY_US else cpu_relax P)
                (fun _ => pd_power_up_poll P mask n)) s.
Proof. reflexivity. Qed.

(** The loop follows [poll_schedule]; it gives up only after [n] polls that
    all saw the bit, and leaves early only on a poll that saw it clear. *)
Lemma pd_power_up_poll_shape mask n : forall k s,
  (k + n = 201)%nat ->
  let r := pd_power_up_poll P mask n s in
  let polls := reads_of SWUCR (events r) in
  events r = poll_schedule mask k polls
  /\ (result r = false ->
      length polls = n /\ Forall (bit_set mask) polls)
  /\ (result r = true ->
      exists vs v, polls = vs ++ [v] /\ (length vs < n)%nat
                   /\ Forall (bit_set mask) vs /\ bit_clear mask v).
Proof.
  induction n as [|n IH]; intros k s Hk.
  - cbn. repeat split; auto; discriminate.
  - cbv zeta. rewrite pd_power_up_poll_step.
    set (rd := __raw_readl P SWUCR s).
    assert (Hrd : events rd = [EvReadl SWUCR (result rd)])
      by apply readl_events.
    rewrite bind_events, bind_result. fold rd. rewrite Hrd.
    destruct (Z.land (result rd) mask =? 0) eqn:Hbit.
    + cbn. rewrite Hbit; cbn.
      repeat split; try discriminate.
      intros _. exists [], (result rd). cbn.
      repeat split; auto; [lia|]. now apply Z.eqb_eq.
    + rewrite bind_events, bind_result.
      set (dl := (if (PSTR_RETRIES <? S n)%nat
                  then udelay P PSTR_DELAY_US else cpu_relax P) (final rd)).
      assert (Hdl : events dl = [delay_after_poll k]).
      { unfold dl, delay_after_poll, PSTR_RETRIES, PSTR_DELAY_US.
        destruct (Nat.ltb_spec 100 (S n)), (Nat.leb_spec k 100);
          try lia; reflexivity. }
      specialize (IH (S k) (final dl) ltac:(lia)). cbv zeta in IH.
      set (rest := pd_power_up_poll P mask n (final dl)) in *.
      destruct IH as (Hev & Hfalse & Htrue).
      assert (Hpolls : reads_of SWUCR
                ([EvReadl SWUCR (result rd)] ++ events dl ++ events rest)
              = result rd :: reads_of SWUCR (events rest)).
      { rewrite Hdl. cbn.
        unfold delay_after_poll. now destruct (k <=? 100)%nat. }
      rewrite Hpolls.
      assert (Hset : bit_set mask (result rd)) by now apply Z.eqb_neq.
      split; [|split].
      * cbn [poll_schedule]. rewrite Hbit, Hdl, <- Hev. reflexivity.
      * intros Hr. destruct (Hfalse Hr) as [Hlen Hall].
        split; [cbn; now rewrite Hlen | now constructor].
      * intros Hr. destruct (Htrue Hr) as (vs & v & Hvs & Hlen & Hall & Hv).
        exists (result rd :: vs), v. rewrite Hvs. cbn.
        repeat split; auto; lia.
Qed.

Lemma pd_power_up_poll_length mask n s :
  (n <= 200)%nat ->
  (length (reads_of SWUCR (events (pd_power_up_poll P mask n s))) <= n)%nat.
Proof.
  intros Hn.
  destruct (pd_power_up_poll_shape mask n (201 - n) s ltac:(lia))
    as (_ & Hfalse & Htrue).
  destruct (result (pd_power_up_poll P mask n s)) eqn:Hr.
  - destruct (Htrue eq_refl) as (vs & v & -> & Hlen & _).
    rewrite length_app; cbn; lia.
  - destruct (Hfalse eq_refl) as [-> _]; lia.
Qed.

End Polling.

(** A schedule that starts at poll [k] spends at most ten microseconds on
    each of the polls up to the hundredth. *)
Lemma poll_schedule_udelay mask polls : forall k,
  total_udelay (poll_schedule mask k polls) <= 10 * Z.of_nat (101 - k).
Proof.
  induction polls as [|v polls IH]; intros k; cbn [poll_schedule].
  - cbn [total_udelay]. lia.
  - cbn [total_udelay]. rewrite total_udelay_app.
    specialize (IH (S k)).
    destruct (Z.land v mask =? 0); cbn [total_udelay]; [lia|].
    unfold delay_after_poll.
    destruct (Nat.leb_spec k 100); cbn [total_udelay]; lia.
Qed.

(** ** The shape of one [pd_power_up] call *)

Section PowerUp.

Context {H : Type}.
Variable P : reg_port H.

Lemma pd_power_up_out_run mask r s :
  let rd := __raw_readl P PSTR s in
  pd_power_up_out P mask r s
  = (r, final rd,
     [EvReadl PSTR (result rd); EvPrDebug MsgDomainUp None mask (result rd)]).
Proof.
  unfold pd_power_up_out, bind, pr_debug, ret, __raw_readl, result, final.
  destruct (port_readl P PSTR s); reflexivity.
Qed.

(** Status bit already set: straight to [out]. *)
Lemma pd_power_up_short_circuit d s :
  let mask := domain_mask d in
  let rd := __raw_readl P PSTR s in
  bit_set mask (result rd) ->
  pd_power_up P d s
  = (0, final (__raw_readl P PSTR (final rd)),
     [EvReadl PSTR (result rd);
      EvReadl PSTR (result (__raw_readl P PSTR (final rd)));
      EvPrDebug MsgDomainUp None mask
        (result (__raw_readl P PSTR (final rd)))]).
Proof.
  intros mask rd Hset. apply Z.eqb_neq in Hset.
  unfold pd_power_up. fold mask. unfold bind at 1. fold rd.
  pose proof (readl_events P PSTR s) as Hev. fold rd in Hev.
  destruct rd as [[v s1] t1]. cbn [result final events fst snd] in *.
  rewrite Hset. cbn [negb]. rewrite pd_power_up_out_run. cbv zeta.
  now rewrite Hev.
Qed.

(** Status bit clear: the request is written, the loop runs, and what
    follows the loop reads [SWUCR] once more exactly when the loop gave up. *)
Lemma pd_power_up_request d s :
  let mask := domain_mask d in
  let rd := __raw_readl P PSTR s in
  let l := pd_power_up_poll P mask (2 * PSTR_RETRIES)
             (port_writel P mask SWUCR (final rd)) in
  let v' := result (__raw_readl P SWUCR (final l)) in
  bit_clear mask (result rd) ->
  exists tail,
    events (pd_power_up P d s)
    = EvReadl PSTR (result rd) :: EvWritel mask SWUCR :: events l ++ tail
    /\ result (pd_power_up P d s)
       = (if result l then 0
          else if negb (Z.land v' mask =? 0) then - EIO else 0)
    /\ reads_of SWUCR tail = (if result l then [] else [v'])
    /\ writes tail = [] /\ delays tail = [] /\ total_udelay tail = 0
    /\ existsb is_pr_debug tail = true.
Proof.
  intros mask rd l v' Hclear. apply Z.eqb_eq in Hclear.
  unfold pd_power_up. fold mask.
  pose proof (readl_events P PSTR s) as Hrd. fold rd in Hrd.
  rewrite bind_events, bind_result. fold rd.
  rewrite Hrd, Hclear. cbn [negb].
  rewrite ?bind_events, ?bind_result, ?bind_final.
  change (final (__raw_writel P mask SWUCR (final rd)))
    with (port_writel P mask SWUCR (final rd)).
  change (events (__raw_writel P mask SWUCR (final rd)))
    with [EvWritel mask SWUCR].
  fold l.
  destruct (result l) eqn:Hl.
  - rewrite pd_power_up_out_run. cbv zeta. cbn [events result].
    eexists. split; [reflexivity|]. cbn. repeat split; reflexivity.
  - rewrite ?bind_events, ?bind_result, ?bind_final.
    rewrite (readl_events P SWUCR (final l)). fold v'.
    rewrite pd_power_up_out_run. cbv zeta. cbn [events result].
    eexists. split; [cbn [app]; reflexivity|].
    split; [reflexivity|].
    destruct (no_debug d); cbn [negb].
    + cbn. repeat split; reflexivity.
    + rewrite bind_events, readl_events. cbn. repeat split; reflexivity.
Qed.

End PowerUp.

Lemma poll_schedule_delays mask polls : forall k,
  Forall (bit_set mask) polls ->
  delays (poll_schedule mask k polls)
  = map delay_after_poll (seq k (length polls)).
Proof.
  induction polls as [|v polls IH]; intros k Hall; [reflexivity|].
  inversion Hall as [|? ? Hv Hrest]; subst.
  apply Z.eqb_neq in Hv.
  cbn [poll_schedule length seq map delays]. rewrite Hv, delays_app.
  rewrite IH by assumption.
  unfold delay_after_poll. now destruct (k <=? 100)%nat.
Qed.

(** ** Power-down *)

(** C1. [pd_power_down] returns 0 for every domain and every behaviour of
    the hardware, whatever the register port answers to its reads; there is
    no path on which it returns an error. *)
Theorem pd_power_down_never_fails {H} (P : reg_port H)
    (pd : sh7372_pm_domain) (s : H) :
  result (pd_power_down P pd s) = 0.
Proof.
  unfold pd_power_down.
  now rewrite !bind_result.
Qed.

(** On a simulated bank whose request bit never self-clears, the call uses
    its whole budget of 100 polls of [SPDCR], leaves the domain on, and
    still reports success. *)
Lemma pd_power_down_stuck_request :
  let r := pd_power_down sim_port sh7372_a4r (sim_on 0x20 None) in
  result r = 0
  /\ length (reads_of SPDCR (events r)) = 100%nat
  /\ Forall (bit_set 0x20) (reads_of SPDCR (events r))
  /\ sim_pstr (final r) = 0x20.
Proof.
  cbv zeta. repeat split; try (vm_compute; reflexivity).
  replace (reads_of SPDCR _) with (repeat 0x20 100)
    by (vm_compute; reflexivity).
  apply Forall_forall. intros x Hx. apply repeat_spec in Hx. subst x.
  vm_compute. discriminate.
Qed.

(** ** Power-up *)

(** C2. Starting from a clear status bit: when every read of the
    power-up-request register made by the call (the 200 polls of the loop
    and the read that follows it) still shows the bit, [pd_power_up] returns
    [-EIO]; when one of the 200 polls sees the bit clear, it returns 0. *)
Theorem pd_power_up_timeout_or_success {H} (P : reg_port H)
    (pd : sh7372_pm_domain) (s : H) :
  bit_clear (domain_mask pd) (result (__raw_readl P PSTR s)) ->
  let r := pd_power_up P pd s in
  let polls := reads_of SWUCR (events r) in
  (Forall (bit_set (domain_mask pd)) polls -> result r = - EIO)
  /\ (Exists (bit_clear (domain_mask pd)) (firstn 200 polls) ->
      result r = 0).
Proof.
  intros Hclear r polls.
  destruct (pd_power_up_request P pd s Hclear)
    as (tail & Hev & Hres & Hreads & _).
  cbv zeta in Hev, Hres, Hreads.
  set (l := pd_power_up_poll P (domain_mask pd) (2 * PSTR_RETRIES) _) in *.
  destruct (pd_power_up_poll_shape P (domain_mask pd) (2 * PSTR_RETRIES) 1
              (port_writel P (domain_mask pd) SWUCR
                 (final (__raw_readl P PSTR s))) eq_refl)
    as (_ & Hfalse & Htrue).
  fold l in Hfalse, Htrue.
  assert (Hpolls : polls = reads_of SWUCR (events l) ++ reads_of SWUCR tail).
  { unfold polls, r. rewrite Hev. cbn [reads_of].
    change (PSTR =? SWUCR) with false. cbn iota.
    now rewrite reads_of_app. }
  unfold r. rewrite Hres.
  destruct (result l) eqn:Hl.
  - destruct (Htrue eq_refl) as (vs & v & Hvs & _ & _ & Hv).
    split; [|reflexivity].
    intros Hall. rewrite Hpolls, Hvs in Hall.
    apply Forall_app in Hall as [Hall _].
    apply Forall_app in Hall as [_ Hall].
    inversion Hall as [|? ? Hset _]; subst. now elim Hset.
  - destruct (Hfalse eq_refl) as [Hlen Hall]. rewrite Hreads in Hpolls.
    split.
    + intros Hstuck. rewrite Hpolls in Hstuck.
      apply Forall_app in Hstuck as [_ Hlast].
      inversion Hlast as [|? ? Hset _]; subst.
      apply Z.eqb_neq in Hset. now rewrite Hset.
    + intros Hex. exfalso. rewrite Hpolls in Hex.
      rewrite firstn_app, Hlen in Hex.
      change (200 - 2 * PSTR_RETRIES)%nat with 0%nat in Hex.
      rewrite firstn_O, app_nil_r in Hex.
      rewrite firstn_all2 in Hex by (rewrite Hlen; apply Nat.le_refl).
      apply Exists_exists in Hex as (x & Hin & Hx).
      rewrite Forall_forall in Hall. exact (Hall x Hin Hx).
Qed.

(** Both branches on the simulated bank: a request that is never
    acknowledged, and one acknowledged after three polls. *)
Lemma pd_power_up_timeout_or_success_witness :
  result (pd_power_up sim_port sh7372_a4r (sim_off None)) = - EIO
  /\ result (pd_power_up sim_port sh7372_a4r (sim_off (Some 3%nat))) = 0.
Proof.
  split.
  - apply (pd_power_up_timeout_or_success sim_port sh7372_a4r (sim_off None)).
    + vm_compute; reflexivity.
    + replace (reads_of SWUCR _) with (repeat 0x20 201)
        by (vm_compute; reflexivity).
      apply Forall_forall. intros x Hx. apply repeat_spec in Hx. subst x.
      vm_compute. discriminate.
  - apply (pd_power_up_timeout_or_success sim_port sh7372_a4r
             (sim_off (Some 3%nat))).
    + vm_compute; reflexivity.
    + vm_compute. do 3 apply Exists_cons_tl. apply Exists_cons_hd.
      reflexivity.
Defined.

(** C3. On a domain whose status bit is already set, [pd_power_up] returns
    0 at once: it reads [PSTR] for the test and for the debug message and
    does nothing else, so no register is written, [SWUCR] in particular, and
    nothing is polled or delayed. *)
Theorem pd_power_up_already_on {H} (P : reg_port H)
    (pd : sh7372_pm_domain) (s : H) :
  bit_set (domain_mask pd) (result (__raw_readl P PSTR s)) ->
  let r := pd_power_up P pd s in
  result r = 0
  /\ writes (events r) = []
  /\ reads_of SWUCR (events r) = []
  /\ delays (events r) = []
  /\ exists v p,
       events r = [EvReadl PSTR v; EvReadl PSTR p;
                   EvPrDebug MsgDomainUp None (domain_mask pd) p].
Proof.
  intros Hset r. unfold r.
  rewrite (pd_power_up_short_circuit P pd s Hset).
  cbn [result events fst snd writes reads_of delays].
  change (PSTR =? SWUCR) with false. cbn iota.
  repeat split; eauto.
Qed.

Lemma pd_power_up_already_on_witness :
  result (pd_power_up sim_port sh7372_a4r (sim_on 0x20 None)) = 0
  /\ writes (events (pd_power_up sim_port sh7372_a4r (sim_on 0x20 None)))
     = [].
Proof.
  destruct (pd_power_up_already_on sim_port sh7372_a4r (sim_on 0x20 None))
    as (Hr & Hw & _).
  - vm_compute. discriminate.
  - split; assumption.
Defined.

(** C10. When all 200 polls of the loop saw the request bit set, the result
    is decided by one more read of [SWUCR] after the loop: if that 201st
    read shows the bit clear, [pd_power_up] returns 0, not [-EIO]. *)
Theorem pd_power_up_final_read_decides {H} (P : reg_port H)
    (pd : sh7372_pm_domain) (s : H) (vs : list Z) (v : Z) :
  bit_clear (domain_mask pd) (result (__raw_readl P PSTR s)) ->
  reads_of SWUCR (events (pd_power_up P pd s)) = vs ++ [v] ->
  length vs = 200%nat ->
  Forall (bit_set (domain_mask pd)) vs ->
  bit_clear (domain_mask pd) v ->
  result (pd_power_up P pd s) = 0.
Proof.
  intros Hclear Hpolls Hlen Hall Hv.
  destruct (pd_power_up_request P pd s Hclear)
    as (tail & Hev & Hres & Hreads & _).
  cbv zeta in Hev, Hres, Hreads.
  set (l := pd_power_up_poll P (domain_mask pd) (2 * PSTR_RETRIES) _) in *.
  destruct (pd_power_up_poll_shape P (domain_mask pd) (2 * PSTR_RETRIES) 1
              (port_writel P (domain_mask pd) SWUCR
                 (final (__raw_readl P PSTR s))) eq_refl)
    as (_ & Hfalse & _).
  fold l in Hfalse.
  rewrite Hres.
  destruct (result l) eqn:Hl; [reflexivity|].
  destruct (Hfalse eq_refl) as [Hlen' _].
  rewrite Hev in Hpolls. cbn [reads_of] in Hpolls.
  change (PSTR =? SWUCR) with false in Hpolls. cbn iota in Hpolls.
  rewrite reads_of_app, Hreads in Hpolls.
  apply app_inj_tail in Hpolls as [_ Hlast].
  rewrite Hlast. apply Z.eqb_eq in Hv. now rewrite Hv.
Qed.

Lemma pd_power_up_final_read_decides_witness :
  result (pd_power_up sim_port sh7372_a4r (sim_off (Some 200%nat))) = 0.
Proof.
  apply (pd_power_up_final_read_decides sim_port sh7372_a4r
           (sim_off (Some 200%nat)) (repeat 0x20 200) 0).
  - vm_compute; reflexivity.
  - vm_compute; reflexivity.
  - apply repeat_length.
  - apply Forall_forall. intros x Hx. apply repeat_spec in Hx. subst x.
    vm_compute. discriminate.
  - vm_compute; reflexivity.
Defined.

Lemma poll_schedule_app mask vs ws : forall k,
  poll_schedule mask k (vs ++ ws)
  = poll_schedule mask k vs ++ poll_schedule mask (length vs + k) ws.
Proof.
  induction vs as [|v vs IH]; intros k; [reflexivity|].
  cbn [app poll_schedule length]. rewrite IH, <- !app_assoc.
  replace (length vs + S k)%nat with (S (length vs) + k)%nat by lia.
  reflexivity.
Qed.

Lemma filter_bit_set mask vs :
  Forall (bit_set mask) vs ->
  filter (fun v => negb (Z.land v mask =? 0)) vs = vs.
Proof.
  induction 1 as [|v vs Hv _ IH]; [reflexivity|].
  apply Z.eqb_neq in Hv. cbn [filter]. now rewrite Hv, IH.
Qed.

(** C7. The polling loop of [pd_power_up].  A call that finds the status
    bit clear reads [PSTR], writes the request, and then polls [SWUCR] at
    most 200 times on the schedule: each of the first 100 polls that still
    sees the bit is followed by [udelay(10)], each later one by a bare
    [cpu_relax]; whatever follows the loop waits no more and reads [SWUCR]
    at most once.  So the waits of the whole call are, in order, one per
    failed poll, and when the request bit never clears the call makes 201
    reads of [SWUCR] and waits exactly 100 times 10 microseconds and then
    relaxes 100 times.  No call spends more than 100 * 10 microseconds in
    [udelay]. *)
Theorem pd_power_up_poll_budget {H} (P : reg_port H)
    (pd : sh7372_pm_domain) (s : H) :
  let mask := domain_mask pd in
  let tr := events (pd_power_up P pd s) in
  let polls := firstn 200 (reads_of SWUCR tr) in
  total_udelay tr <= 100 * 10
  /\ (bit_clear mask (result (__raw_readl P PSTR s)) ->
      (exists v tail,
         tr = EvReadl PSTR v :: EvWritel mask SWUCR
                :: poll_schedule mask 1 polls ++ tail
         /\ delays tail = []
         /\ (length (reads_of SWUCR tail) <= 1)%nat
         /\ reads_of SWUCR tr = polls ++ reads_of SWUCR tail)
      /\ delays tr
         = map delay_after_poll
             (seq 1 (length (filter (fun v => negb (Z.land v mask =? 0))
                               polls)))
      /\ (Forall (bit_set mask) (reads_of SWUCR tr) ->
          length (reads_of SWUCR tr) = 201%nat
          /\ delays tr
             = repeat (EvUdelay 10) 100 ++ repeat EvCpuRelax 100)).
Proof.
  intros mask tr polls.
  assert (Hbudget : forall s0,
            total_udelay
              (events (pd_power_up_poll P mask (2 * PSTR_RETRIES) s0))
            <= 100 * 10).
  { intros s0.
    destruct (pd_power_up_poll_shape P mask (2 * PSTR_RETRIES) 1 s0 eq_refl)
      as (-> & _).
    apply (poll_schedule_udelay mask _ 1). }
  destruct (Z.eqb_spec
              (Z.land (result (__raw_readl P PSTR s)) (domain_mask pd)) 0)
    as [Hclear|Hset].
  2:{ split; [|intros Hbad; now elim Hset].
      unfold tr. rewrite (pd_power_up_short_circuit P pd s Hset). cbn. lia. }
  destruct (pd_power_up_request P pd s Hclear)
    as (tail & Hev & _ & Hreads & _ & Hdelays & Htail & _).
  cbv zeta in Hev, Hreads. fold mask in Hev, Hreads.
  set (l := pd_power_up_poll P mask (2 * PSTR_RETRIES) _) in *.
  destruct (pd_power_up_poll_shape P mask (2 * PSTR_RETRIES) 1
              (port_writel P mask SWUCR (final (__raw_readl P PSTR s)))
              eq_refl)
    as (Hsched & Hfalse & Htrue).
  fold l in Hsched, Hfalse, Htrue.
  set (lp := reads_of SWUCR (events l)) in *.
  assert (Hall : reads_of SWUCR tr = lp ++ reads_of SWUCR tail).
  { unfold tr. rewrite Hev. cbn [reads_of].
    change (PSTR =? SWUCR) with false. cbn iota.
    now rewrite reads_of_app. }
  assert (Hpolls : polls = lp).
  { unfold polls. rewrite Hall, Hreads.
    destruct (result l) eqn:Hl.
    - destruct (Htrue eq_refl) as (vs & v & Hvs & Hlen & _).
      rewrite app_nil_r. apply firstn_all2.
      rewrite Hvs, length_app. cbn. unfold PSTR_RETRIES in Hlen. lia.
    - destruct (Hfalse eq_refl) as [Hlen _].
      rewrite firstn_app, Hlen.
      change (200 - 2 * PSTR_RETRIES)%nat with 0%nat.
      rewrite firstn_O, app_nil_r.
      apply firstn_all2. rewrite Hlen. apply Nat.le_refl. }
  assert (Htr : tr = EvReadl PSTR (result (__raw_readl P PSTR s))
                       :: EvWritel mask SWUCR
                       :: poll_schedule mask 1 polls ++ tail).
  { unfold tr. now rewrite Hev, Hpolls, <- Hsched. }
  assert (Hd : delays tr = delays (poll_schedule mask 1 polls)).
  { rewrite Htr. cbn [delays]. now rewrite delays_app, Hdelays, app_nil_r. }
  split.
  { rewrite Htr. cbn [total_udelay]. rewrite total_udelay_app, Htail.
    pose proof (poll_schedule_udelay mask polls 1). cbn in *. lia. }
  intros _. split; [|split].
  - exists (result (__raw_readl P PSTR s)), tail.
    split; [exact Htr|]. split; [exact Hdelays|].
    split; [rewrite Hreads; destruct (result l); cbn; lia|].
    now rewrite Hpolls.
  - rewrite Hd, Hpolls.
    destruct (result l) eqn:Hl.
    + destruct (Htrue eq_refl) as (vs & v & Hvs & _ & Hset & Hv).
      rewrite Hvs, poll_schedule_app, delays_app, filter_app, length_app.
      rewrite poll_schedule_delays, filter_bit_set by assumption.
      apply Z.eqb_eq in Hv. cbn [poll_schedule filter delays length app].
      rewrite Hv. cbn [negb length app delays].
      now rewrite app_nil_r, Nat.add_0_r.
    + destruct (Hfalse eq_refl) as [_ Hset].
      now rewrite poll_schedule_delays, filter_bit_set by assumption.
  - intros Hstuck. rewrite Hall, Hreads in Hstuck |- *.
    destruct (result l) eqn:Hl.
    + destruct (Htrue eq_refl) as (vs & v & Hvs & _ & _ & Hv).
      rewrite Hvs in Hstuck.
      apply Forall_app in Hstuck as [Hstuck _].
      apply Forall_app in Hstuck as [_ Hlast].
      inversion Hlast as [|? ? Hbad _]; subst. now elim Hbad.
    + destruct (Hfalse eq_refl) as [Hlen Hset].
      rewrite length_app, Hlen. split; [reflexivity|].
      rewrite Hd, Hpolls, poll_schedule_delays, Hlen by assumption.
      reflexivity.
Qed.

(** The worst case on the simulated bank, whose request bit never clears:
    201 reads of [SWUCR], a hundred delays of 10 microseconds and then a
    hundred relaxations. *)
Lemma pd_power_up_poll_budget_witness :
  let tr := events (pd_power_up sim_port sh7372_a4r (sim_off None)) in
  length (reads_of SWUCR tr) = 201%nat
  /\ delays tr = repeat (EvUdelay 10) 100 ++ repeat EvCpuRelax 100.
Proof.
  cbv zeta.
  destruct (pd_power_up_poll_budget sim_port sh7372_a4r (sim_off None))
    as (_ & Hloop).
  destruct Hloop as (_ & _ & Hworst).
  - vm_compute; reflexivity.
  - apply Hworst.
    replace (reads_of SWUCR _) with (repeat 0x20 201)
      by (vm_compute; reflexivity).
    apply Forall_forall. intros x Hx. apply repeat_spec in Hx. subst x.
    vm_compute. discriminate.
Defined.

(** Whatever [no_debug] says, every return of [pd_power_up] passes the
    [pr_debug] at [out:]. *)
Lemma pd_power_up_always_traces {H} (P : reg_port H)
    (pd : sh7372_pm_domain) (s : H) :
  existsb is_pr_debug (events (pd_power_up P pd s)) = true.
Proof.
  destruct (Z.eqb_spec
              (Z.land (result (__raw_readl P PSTR s)) (domain_mask pd)) 0)
    as [Hclear|Hset].
  - destruct (pd_power_up_request P pd s Hclear)
      as (tail & -> & _ & _ & _ & _ & _ & Htail).
    cbn [existsb is_pr_debug orb]. rewrite existsb_app, Htail.
    apply orb_true_r.
  - rewrite (pd_power_up_short_circuit P pd s Hset). reflexivity.
Qed.

(** C6. Powering up A3SP, whose [no_debug] flag is set, on a bank where it
    is already on: the call succeeds and still emits the debug message of
    the [out:] label, which no test of [no_debug] guards. *)
Theorem pd_power_up_a3sp_traces_despite_no_debug :
  let r := pd_power_up sim_port sh7372_a3sp (sim_on 0x800 None) in
  no_debug sh7372_a3sp = true
  /\ result r = 0
  /\ events r = [EvReadl PSTR 0x800; EvReadl PSTR 0x800;
                 EvPrDebug MsgDomainUp None 0x800 0x800].
Proof. vm_compute. repeat split; reflexivity. Qed.

(** ** The A3RV / A4LC dependency *)

Section Dependency.

Context {H : Type}.
Variables (P : reg_port H) (F : genpd_framework H).

Lemma pd_power_up_a3rv_run genpd s :
  let c := pd_power_up P genpd s in
  let f := fw_pm_genpd_poweron F sh7372_a4lc (final c) in
  pd_power_up_a3rv P F genpd s
  = (result c, snd f, events c ++ [EvGenpdPoweron "A4LC" (fst f)]).
Proof.
  unfold pd_power_up_a3rv, bind, pm_genpd_poweron, ret, result, final, events.
  destruct (pd_power_up P genpd s) as [[r s1] t1]; cbn.
  destruct (fw_pm_genpd_poweron F sh7372_a4lc s1); reflexivity.
Qed.

Lemma pd_power_down_a3rv_run genpd s :
  let c := pd_power_down P genpd s in
  pd_power_down_a3rv P F genpd s
  = (result c, fw_genpd_queue_power_off_work F sh7372_a4lc (final c),
     events c ++ [EvGenpdQueuePowerOffWork "A4LC"]).
Proof.
  unfold pd_power_down_a3rv, bind, genpd_queue_power_off_work, ret,
    result, final, events.
  destruct (pd_power_down P genpd s) as [[r s1] t1]; reflexivity.
Qed.

Lemma pd_power_down_poll_quiet mask n : forall s,
  writes (events (pd_power_down_poll P mask n s)) = []
  /\ filter is_genpd_call (events (pd_power_down_poll P mask n s)) = [].
Proof.
  induction n as [|n IH]; intros s; [split; reflexivity|].
  cbn [pd_power_down_poll].
  rewrite bind_events, readl_events.
  destruct (Z.land _ mask =? 0); [split; reflexivity|].
  rewrite bind_events.
  destruct (IH (final (cpu_relax P (final (__raw_readl P SPDCR s)))))
    as [Hw Hf].
  rewrite !writes_app, !filter_app, Hw, Hf. split; reflexivity.
Qed.

(** [pd_power_down] writes at most once, its own mask to [SPDCR], and calls
    nothing of the framework. *)
Lemma pd_power_down_writes pd s :
  Forall (fun w => w = (domain_mask pd, SPDCR))
    (writes (events (pd_power_down P pd s)))
  /\ filter is_genpd_call (events (pd_power_down P pd s)) = [].
Proof.
  unfold pd_power_down.
  pose proof (pd_power_down_poll_quiet (domain_mask pd) PSTR_RETRIES) as Hq.
  repeat rewrite ?bind_events, ?bind_result, ?bind_final, ?readl_events,
    ?writes_app, ?filter_app.
  destruct (no_debug pd), (negb (Z.land _ (domain_mask pd) =? 0));
    cbn [negb];
    repeat rewrite ?bind_events, ?bind_result, ?bind_final, ?readl_events,
      ?writes_app, ?filter_app, ?(proj1 (Hq _)), ?(proj2 (Hq _));
    cbn [negb events ret __raw_writel pr_debug snd app writes filter
         is_genpd_call];
    split; repeat constructor.
Qed.

End Dependency.

(** C4. The A3RV / A4LC rule is asymmetric.  When powering A3RV up
    succeeds, [pd_power_up_a3rv] ends with a call of [pm_genpd_poweron] on
    A4LC, made after the child's own sequence and before the function
    returns, and it returns in the state that call leaves.  On power-down
    [pd_power_down_a3rv] only hands A4LC to [genpd_queue_power_off_work]:
    that is its only framework call, and its only register write, if any,
    is A3RV's own bit 0x40 to [SPDCR], never A4LC's. *)
Theorem a3rv_a4lc_dependency_asymmetric {H} (P : reg_port H)
    (F : genpd_framework H) (s : H) :
  (result (pd_power_up P sh7372_a3rv s) = 0 ->
   let c := pd_power_up P sh7372_a3rv s in
   let r := pd_power_up_a3rv P F sh7372_a3rv s in
   result r = 0
   /\ events r
      = events c
        ++ [EvGenpdPoweron "A4LC"
              (fst (fw_pm_genpd_poweron F sh7372_a4lc (final c)))]
   /\ final r = snd (fw_pm_genpd_poweron F sh7372_a4lc (final c)))
  /\ (let c := pd_power_down P sh7372_a3rv s in
      let r := pd_power_down_a3rv P F sh7372_a3rv s in
      events r = events c ++ [EvGenpdQueuePowerOffWork "A4LC"]
      /\ filter is_genpd_call (events r) = [EvGenpdQueuePowerOffWork "A4LC"]
      /\ Forall (fun w => w = (0x40, SPDCR)) (writes (events r))
      /\ final r = fw_genpd_queue_power_off_work F sh7372_a4lc (final c)).
Proof.
  split.
  - intros Hok c r. unfold r. rewrite pd_power_up_a3rv_run.
    cbn [result final events fst snd]. fold c. auto.
  - intros c r. unfold r. rewrite pd_power_down_a3rv_run.
    cbn [result final events fst snd]. fold c.
    destruct (pd_power_down_writes P sh7372_a3rv s) as [Hw Hf].
    fold c in Hw, Hf.
    rewrite filter_app, writes_app, Hf.
    repeat split; auto.
    cbn [writes]. now rewrite app_nil_r.
Qed.

(** The dependency on the simulated SoC, with a framework whose
    [pm_genpd_poweron] runs the domain's power-on callback: both status
    bits end set. *)
Lemma a3rv_a4lc_dependency_asymmetric_witness :
  let r := pd_power_up_a3rv sim_port (sim_framework 0 0) sh7372_a3rv
             (sim_off (Some 2%nat)) in
  result r = 0 /\ sim_pstr (final r) = 0x42.
Proof.
  cbv zeta.
  destruct (a3rv_a4lc_dependency_asymmetric sim_port (sim_framework 0 0)
              (sim_off (Some 2%nat))) as [Hup _].
  destruct Hup as (Hr & _ & Hfin).
  - vm_compute; reflexivity.
  - split; [exact Hr|]. rewrite Hfin. vm_compute; reflexivity.
Defined.

(** C9. When the child's own [pd_power_up] fails with [-EIO],
    [pd_power_up_a3rv] still calls [pm_genpd_poweron] on A4LC, as its last
    step, and returns the child's [-EIO]. *)
Theorem pd_power_up_a3rv_forces_parent_on_failure {H} (P : reg_port H)
    (F : genpd_framework H) (genpd : sh7372_pm_domain) (s : H) :
  result (pd_power_up P genpd s) = - EIO ->
  let c := pd_power_up P genpd s in
  let r := pd_power_up_a3rv P F genpd s in
  result r = - EIO
  /\ events r
     = events c
       ++ [EvGenpdPoweron "A4LC"
             (fst (fw_pm_genpd_poweron F sh7372_a4lc (final c)))]
  /\ final r = snd (fw_pm_genpd_poweron F sh7372_a4lc (final c)).
Proof.
  intros Hfail c r. unfold r. rewrite pd_power_up_a3rv_run.
  cbn [result final events fst snd]. fold c. auto.
Qed.

Lemma pd_power_up_a3rv_forces_parent_on_failure_witness :
  let r := pd_power_up_a3rv sim_port (sim_framework 0 0) sh7372_a3rv
             (sim_off None) in
  result r = - EIO
  /\ filter is_genpd_call (events r) = [EvGenpdPoweron "A4LC" (- EIO)].
Proof.
  cbv zeta.
  destruct (pd_power_up_a3rv_forces_parent_on_failure sim_port
              (sim_framework 0 0) sh7372_a3rv (sim_off None))
    as (Hr & Hev & _).
  - vm_compute; reflexivity.
  - split; [exact Hr|]. rewrite Hev. vm_compute; reflexivity.
Defined.

(** ** Device stop/start *)

(** C8. [sh7372_stop_dev] runs the device's stop hook, when it has one,
    first; a hook that fails ends the call with that error and the clocks
    are not suspended; otherwise the result is that of [pm_clk_suspend].
    [sh7372_start_dev] resumes the clocks first; a failure there ends the
    call with that error and the start hook is not run; otherwise the
    hook's result is returned, or 0 when there is no hook. *)
Theorem stop_start_dev_ordering {H} (F : genpd_framework H)
    (dev : device H) (s : H) :
  let name := dev_name dev in
  (forall stop, ops_stop dev = Some stop -> fst (stop s) <> 0 ->
     sh7372_stop_dev F dev s
     = (fst (stop s), snd (stop s), [EvOpsStop name (fst (stop s))]))
  /\ (forall stop, ops_stop dev = Some stop -> fst (stop s) = 0 ->
        let clk := fw_pm_clk_suspend F dev (snd (stop s)) in
        sh7372_stop_dev F dev s
        = (fst clk, snd clk, [EvOpsStop name 0; EvPmClkSuspend name (fst clk)]))
  /\ (ops_stop dev = None ->
        let clk := fw_pm_clk_suspend F dev s in
        sh7372_stop_dev F dev s
        = (fst clk, snd clk, [EvPmClkSuspend name (fst clk)]))
  /\ (let clk := fw_pm_clk_resume F dev s in
      (fst clk <> 0 ->
         sh7372_start_dev F dev s
         = (fst clk, snd clk, [EvPmClkResume name (fst clk)]))
      /\ (forall start, fst clk = 0 -> ops_start dev = Some start ->
            let st := start (snd clk) in
            sh7372_start_dev F dev s
            = (fst st, snd st,
               [EvPmClkResume name 0; EvOpsStart name (fst st)]))
      /\ (fst clk = 0 -> ops_start dev = None ->
            sh7372_start_dev F dev s
            = (0, snd clk, [EvPmClkResume name 0]))).
Proof.
  intros name. cbv zeta.
  unfold sh7372_stop_dev, sh7372_start_dev, bind, call_stop, call_start,
    pm_clk_suspend, pm_clk_resume, ret.
  repeat split.
  - intros stop -> Hfail. apply Z.eqb_neq in Hfail.
    destruct (stop s) as [r s1]; cbn [fst snd] in *. now rewrite Hfail.
  - intros stop -> Hok.
    destruct (stop s) as [r s1]; cbn [fst snd] in *. subst r. cbn.
    destruct (fw_pm_clk_suspend F dev s1); reflexivity.
  - intros ->.
    destruct (fw_pm_clk_suspend F dev s); reflexivity.
  - intros Hfail. apply Z.eqb_neq in Hfail.
    destruct (fw_pm_clk_resume F dev s) as [r s1]; cbn [fst snd] in *.
    now rewrite Hfail.
  - intros start Hok ->.
    destruct (fw_pm_clk_resume F dev s) as [r s1]; cbn [fst snd] in *.
    subst r. cbn. destruct (start s1); reflexivity.
  - intros Hok ->.
    destruct (fw_pm_clk_resume F dev s) as [r s1]; cbn [fst snd] in *.
    subst r. reflexivity.
Qed.

(** On the simulated SoC: a stop hook failing with -16 keeps the clocks
    running, and a clock resume failing with -22 keeps the start hook from
    running. *)
Lemma stop_start_dev_ordering_witness :
  sh7372_stop_dev (sim_framework 0 0) (sim_device (Some (-16)) None)
    (sim_off None)
  = (-16, sim_off None, [EvOpsStop "sh-sci.0" (-16)])
  /\ sh7372_start_dev (sim_framework 0 (-22)) (sim_device None (Some 0))
       (sim_off None)
     = (-22, sim_off None, [EvPmClkResume "sh-sci.0" (-22)]).
Proof.
  split.
  - destruct (stop_start_dev_ordering (sim_framework 0 0)
                (sim_device (Some (-16)) None) (sim_off None))
      as (Hstop & _).
    apply (Hstop (sim_hook (-16))); [reflexivity | vm_compute; discriminate].
  - destruct (stop_start_dev_ordering (sim_framework 0 (-22))
                (sim_device None (Some 0)) (sim_off None))
      as (_ & _ & _ & Hstart & _).
    apply Hstart. vm_compute; discriminate.
Defined.

(** ** Core standby *)

Section CoreStandby.

Context {H : Type}.
Variables (P : reg_port H) (C : cpu_ops H).

Lemma core_standby_sleep_events smfram s :
  events (core_standby_sleep P C smfram s)
  = [EvWritel 0 APARMBAREA; EvWritel (cpu_resume_pa C) SBAR;
     EvWritel 0x10 SYSTBCR; EvWritel 0 (smfram + 0x3c);
     EvCpuSuspend; EvCpuInit].
Proof. reflexivity. Qed.

Lemma core_standby_recover_run smfram w :
  let marker := result (__raw_readl P (smfram + 0x3c) w) in
  let w1 := final (__raw_readl P (smfram + 0x3c) w) in
  let rv := __raw_readl P (smfram + 0x40) w1 in
  let ra := __raw_readl P (smfram + 0x3c) (final rv) in
  let w2 := cpu_flush_tlb_all C
              (port_writel P (result rv) (cpu_va C (result ra)) (final ra)) in
  let rc := __raw_readl P (smfram + 0x38) w2 in
  core_standby_recover P C smfram w
  = if marker =? 0
    then (tt, w1, [EvReadl (smfram + 0x3c) marker])
    else (tt, cpu_set_cr C (result rc) (final rc),
          [EvReadl (smfram + 0x3c) marker;
           EvReadl (smfram + 0x40) (result rv);
           EvReadl (smfram + 0x3c) (result ra);
           EvWritel (result rv) (cpu_va C (result ra));
           EvFlushTlbAll;
           EvReadl (smfram + 0x38) (result rc);
           EvSetCr (result rc)]).
Proof.
  cbv zeta.
  unfold core_standby_recover, bind, __raw_readl, __raw_writel,
    flush_tlb_all, set_cr, ret, result, final.
  destruct (port_readl P (smfram + 0x3c) w) as [m w1]; cbn [fst snd].
  destruct (u32 m =? 0); cbn [negb]; [reflexivity|].
  destruct (port_readl P (smfram + 0x40) w1) as [v w2]; cbn [fst snd].
  destruct (port_readl P (smfram + 0x3c) w2) as [a w3]; cbn [fst snd].
  destruct (port_readl P (smfram + 0x38) _) as [c w4]; reflexivity.
Qed.

End CoreStandby.



(** * Further properties of the file *)

(** ** Power-down in detail *)

Section PowerDown.

Context {H : Type}.
Variable P : reg_port H.

Lemma pd_power_down_poll_shape mask n : forall s,
  let r := pd_power_down_poll P mask n s in
  let polls := reads_of SPDCR (events r) in
  events r = spdcr_schedule mask polls
  /\ (length polls <= n)%nat
  /\ (result r = false -> length polls = n /\ Forall (bit_set mask) polls)
  /\ (result r = true ->
      exists vs v, polls = vs ++ [v]
                   /\ Forall (bit_set mask) vs /\ bit_clear mask v).
Proof.
  induction n as [|n IH]; intros s.
  - cbn. repeat split; auto; discriminate.
  - cbv zeta. cbn [pd_power_down_poll].
    set (rd := __raw_readl P SPDCR s).
    assert (Hrd : events rd = [EvReadl SPDCR (result rd)])
      by apply readl_events.
    rewrite bind_events, bind_result. fold rd. rewrite Hrd.
    destruct (Z.land (result rd) mask =? 0) eqn:Hbit.
    + cbn. rewrite Hbit; cbn.
      repeat split; try discriminate; try lia.
      intros _. exists [], (result rd). cbn.
      repeat split; auto. now apply Z.eqb_eq.
    + rewrite bind_events, bind_result.
      set (s1 := final (cpu_relax P (final rd))).
      change (events (cpu_relax P (final rd))) with [EvCpuRelax].
      specialize (IH s1). cbv zeta in IH.
      set (rest := pd_power_down_poll P mask n s1) in *.
      destruct IH as (Hev & Hle & Hfalse & Htrue).
      assert (Hpolls : reads_of SPDCR
                ([EvReadl SPDCR (result rd)] ++ [EvCpuRelax] ++ events rest)
              = result rd :: reads_of SPDCR (events rest))
        by reflexivity.
      rewrite Hpolls.
      assert (Hset : bit_set mask (result rd)) by now apply Z.eqb_neq.
      split; [|split; [|split]].
      * cbn [spdcr_schedule]. rewrite Hbit, <- Hev. reflexivity.
      * cbn [length]. lia.
      * intros Hr. destruct (Hfalse Hr) as [Hlen Hall].
        split; [cbn; now rewrite Hlen | now constructor].
      * intros Hr. destruct (Htrue Hr) as (vs & v & Hvs & Hall & Hv).
        exists (result rd :: vs), v. rewrite Hvs. cbn.
        repeat split; auto.
Qed.

(** One call, piece by piece: the status read, the request and its polls
    when the domain is on, the debug message unless [no_debug]. *)
Lemma pd_power_down_run pd s :
  let mask := domain_mask pd in
  let rd := __raw_readl P PSTR s in
  let l := pd_power_down_poll P mask PSTR_RETRIES
             (port_writel P mask SPDCR (final rd)) in
  exists p,
    events (pd_power_down P pd s)
    = EvReadl PSTR (result rd)
        :: (if Z.land (result rd) mask =? 0 then []
            else EvWritel mask SPDCR :: events l)
        ++ (if no_debug pd then []
            else [EvReadl PSTR p;
                  EvPrDebug MsgPowerOff (Some (genpd_name pd)) mask p]).
Proof.
  intros mask rd l.
  unfold pd_power_down. fold mask.
  pose proof (readl_events P PSTR s) as Hrd. fold rd in Hrd.
  rewrite ?bind_events, ?bind_result, ?bind_final. fold rd. rewrite Hrd.
  destruct (Z.land (result rd) mask =? 0); cbn [negb].
  - destruct (no_debug pd); cbn [negb].
    + exists 0. reflexivity.
    + rewrite bind_events, readl_events. eexists. reflexivity.
  - rewrite ?bind_events, ?bind_final.
    change (final (__raw_writel P mask SPDCR (final rd)))
      with (port_writel P mask SPDCR (final rd)).
    change (events (__raw_writel P mask SPDCR (final rd)))
      with [EvWritel mask SPDCR].
    fold l.
    destruct (no_debug pd); cbn [negb].
    + exists 0. cbn [events ret snd app]. now rewrite !app_nil_r.
    + rewrite bind_events, readl_events. eexists.
      cbn [events ret pr_debug snd app]. rewrite !app_nil_r.
      reflexivity.
Qed.

End PowerDown.

Lemma spdcr_schedule_quiet mask polls :
  writes (spdcr_schedule mask polls) = []
  /\ total_udelay (spdcr_schedule mask polls) = 0
  /\ existsb is_pr_debug (spdcr_schedule mask polls) = false
  /\ delays (spdcr_schedule mask polls)
     = repeat EvCpuRelax
         (length (filter (fun v => negb (Z.land v mask =? 0)) polls)).
Proof.
  induction polls as [|v polls (Hw & Hu & Hd & Hr)];
    [repeat split; reflexivity|].
  cbn [spdcr_schedule writes total_udelay existsb is_pr_debug orb delays
       filter].
  rewrite writes_app, total_udelay_app, existsb_app, delays_app, Hw, Hu, Hd,
    Hr.
  destruct (Z.land v mask =? 0); repeat split; reflexivity.
Qed.

Lemma spdcr_schedule_footprint pd polls :
  forallb (pd_power_down_event pd) (spdcr_schedule (domain_mask pd) polls)
  = true.
Proof.
  induction polls as [|v polls IH]; [reflexivity|].
  cbn [spdcr_schedule forallb pd_power_down_event].
  rewrite forallb_app, IH.
  destruct (Z.land v (domain_mask pd) =? 0); reflexivity.
Qed.

(** X1. Powering down a domain whose status bit is already clear touches
    nothing: no register is written, [SPDCR] is never read and there is no
    wait. *)
Theorem pd_power_down_already_off {H} (P : reg_port H)
    (pd : sh7372_pm_domain) (s : H) :
  bit_clear (domain_mask pd) (result (__raw_readl P PSTR s)) ->
  let tr := events (pd_power_down P pd s) in
  writes tr = [] /\ reads_of SPDCR tr = [] /\ delays tr = []
  /\ (length tr <= 3)%nat.
Proof.
  intros Hclear tr. unfold tr.
  destruct (pd_power_down_run P pd s) as (p & ->).
  apply Z.eqb_eq in Hclear. rewrite Hclear.
  destruct (no_debug pd); cbn; repeat split; auto; lia.
Qed.

Lemma pd_power_down_already_off_witness :
  writes (events (pd_power_down sim_port sh7372_a3rv (sim_off (Some 0%nat))))
  = [].
Proof.
  apply (pd_power_down_already_off sim_port sh7372_a3rv
           (sim_off (Some 0%nat))).
  vm_compute; reflexivity.
Defined.

(** X2. Powering down a domain whose status bit is set writes the domain's
    mask to [SPDCR] exactly once and then polls [SPDCR] between 1 and 100
    times.  Every poll but the last saw the request bit; the loop stops
    before the hundredth poll only on a poll that saw it clear.  The only
    waiting is one [cpu_relax] per failed poll, never a [udelay]. *)
Theorem pd_power_down_request_once {H} (P : reg_port H)
    (pd : sh7372_pm_domain) (s : H) :
  bit_set (domain_mask pd) (result (__raw_readl P PSTR s)) ->
  let mask := domain_mask pd in
  let tr := events (pd_power_down P pd s) in
  writes tr = [(mask, SPDCR)]
  /\ (exists vs v,
        reads_of SPDCR tr = vs ++ [v]
        /\ (length vs < 100)%nat
        /\ Forall (bit_set mask) vs
        /\ (bit_set mask v -> length vs = 99%nat))
  /\ delays tr
     = repeat EvCpuRelax
         (length (filter (fun v => negb (Z.land v mask =? 0))
                    (reads_of SPDCR tr)))
  /\ total_udelay tr = 0.
Proof.
  intros Hset mask tr. unfold tr.
  destruct (pd_power_down_run P pd s) as (p & ->).
  apply Z.eqb_neq in Hset. fold mask in Hset |- *. rewrite Hset.
  set (l := pd_power_down_poll P mask PSTR_RETRIES _).
  destruct (pd_power_down_poll_shape P mask PSTR_RETRIES
              (port_writel P mask SPDCR (final (__raw_readl P PSTR s))))
    as (Hev & Hle & Hfalse & Htrue).
  fold l in Hev, Hle, Hfalse, Htrue.
  destruct (spdcr_schedule_quiet mask (reads_of SPDCR (events l)))
    as (Hw & Hu & _ & Hd).
  rewrite <- Hev in Hw, Hu, Hd.
  assert (Hreads : forall dbg,
            reads_of SPDCR dbg = [] ->
            reads_of SPDCR
              (EvReadl PSTR (result (__raw_readl P PSTR s))
                 :: (EvWritel mask SPDCR :: events l) ++ dbg)
            = reads_of SPDCR (events l)).
  { intros dbg Hdbg. cbn [reads_of app].
    change (PSTR =? SPDCR) with false. cbn iota.
    now rewrite reads_of_app, Hdbg, app_nil_r. }
  set (dbg := if no_debug pd then [] else _).
  assert (Hdbg : reads_of SPDCR dbg = [] /\ writes dbg = []
                 /\ delays dbg = [] /\ total_udelay dbg = 0)
    by (unfold dbg; destruct (no_debug pd); repeat split; reflexivity).
  destruct Hdbg as (Hdr & Hdw & Hdd & Hdu).
  rewrite (Hreads _ Hdr).
  cbn [writes delays total_udelay app].
  rewrite writes_app, delays_app, total_udelay_app, Hw, Hu, Hd, Hdw, Hdd, Hdu.
  repeat split.
  - destruct (result l) eqn:Hl.
    + destruct (Htrue eq_refl) as (vs & v & Hvs & Hall & Hv).
      exists vs, v. rewrite Hvs in Hle |- *.
      rewrite length_app in Hle. cbn in Hle.
      repeat split; auto; [unfold PSTR_RETRIES in Hle; lia|].
      intros Hbad. now elim Hbad.
    + destruct (Hfalse eq_refl) as [Hlen Hall].
      destruct (exists_last (l := reads_of SPDCR (events l))) as (vs & v & Hvs).
      { intros Hnil. rewrite Hnil in Hlen. discriminate. }
      exists vs, v. rewrite Hvs in Hlen, Hall |- *.
      rewrite length_app in Hlen. cbn in Hlen.
      apply Forall_app in Hall as [Hvs' _].
      unfold PSTR_RETRIES in Hlen.
      repeat split; auto; lia.
  - now rewrite app_nil_r.
Qed.

Lemma pd_power_down_request_once_witness :
  writes (events (pd_power_down sim_port sh7372_a3rv
                    (sim_on 0x40 (Some 2%nat))))
  = [(0x40, SPDCR)].
Proof.
  apply (pd_power_down_request_once sim_port sh7372_a3rv
           (sim_on 0x40 (Some 2%nat))).
  vm_compute. discriminate.
Defined.

(** X3. The debug message of [pd_power_down] obeys [no_debug]: with the
    flag set the call prints nothing; without it the call ends by reading
    [PSTR] and printing that value with the domain's name and mask, and
    prints nothing before. *)
Theorem pd_power_down_debug_obeys_no_debug {H} (P : reg_port H)
    (pd : sh7372_pm_domain) (s : H) :
  let tr := events (pd_power_down P pd s) in
  (no_debug pd = true -> existsb is_pr_debug tr = false)
  /\ (no_debug pd = false ->
      exists t p,
        tr = t ++ [EvReadl PSTR p;
                   EvPrDebug MsgPowerOff (Some (genpd_name pd))
                     (domain_mask pd) p]
        /\ existsb is_pr_debug t = false).
Proof.
  intros tr. unfold tr.
  destruct (pd_power_down_run P pd s) as (p & ->).
  set (l := pd_power_down_poll P (domain_mask pd) PSTR_RETRIES _).
  destruct (pd_power_down_poll_shape P (domain_mask pd) PSTR_RETRIES
              (port_writel P (domain_mask pd) SPDCR
                 (final (__raw_readl P PSTR s))))
    as (Hev & _).
  fold l in Hev.
  destruct (spdcr_schedule_quiet (domain_mask pd)
              (reads_of SPDCR (events l))) as (_ & _ & Hq & _).
  rewrite <- Hev in Hq.
  split; intros ->.
  - rewrite app_nil_r.
    destruct (Z.land _ _ =? 0); cbn [existsb is_pr_debug orb]; auto.
  - eexists (EvReadl PSTR _ :: _), p. split.
    + rewrite app_comm_cons. reflexivity.
    + destruct (Z.land _ _ =? 0); cbn [existsb is_pr_debug orb]; auto.
Qed.

Lemma pd_power_down_debug_obeys_no_debug_witness :
  existsb is_pr_debug
    (events (pd_power_down sim_port sh7372_a3sp (sim_on 0x800 (Some 1%nat))))
  = false.
Proof.
  destruct (pd_power_down_debug_obeys_no_debug sim_port sh7372_a3sp
              (sim_on 0x800 (Some 1%nat))) as [Hquiet _].
  apply Hquiet. reflexivity.
Defined.

(** ** Power-up in detail *)

Section PowerUpDetail.

Context {H : Type}.
Variable P : reg_port H.

(** One call with the status bit clear, event by event. *)
Lemma pd_power_up_run pd s :
  let mask := domain_mask pd in
  let rd := __raw_readl P PSTR s in
  let l := pd_power_up_poll P mask (2 * PSTR_RETRIES)
             (port_writel P mask SWUCR (final rd)) in
  let v' := result (__raw_readl P SWUCR (final l)) in
  bit_clear mask (result rd) ->
  exists p q,
    events (pd_power_up P pd s)
    = EvReadl PSTR (result rd) :: EvWritel mask SWUCR :: events l
        ++ (if result l then []
            else EvReadl SWUCR v'
                   :: (if no_debug pd then []
                       else [EvReadl PSTR q;
                             EvPrDebug MsgPowerOn (Some (genpd_name pd))
                               mask q]))
        ++ [EvReadl PSTR p; EvPrDebug MsgDomainUp None mask p].
Proof.
  intros mask rd l v' Hclear. apply Z.eqb_eq in Hclear.
  unfold pd_power_up. fold mask.
  pose proof (readl_events P PSTR s) as Hrd. fold rd in Hrd.
  rewrite bind_events, ?bind_result. fold rd.
  rewrite Hrd, Hclear. cbn [negb].
  rewrite ?bind_events, ?bind_result, ?bind_final.
  change (final (__raw_writel P mask SWUCR (final rd)))
    with (port_writel P mask SWUCR (final rd)).
  change (events (__raw_writel P mask SWUCR (final rd)))
    with [EvWritel mask SWUCR].
  fold l.
  destruct (result l) eqn:Hl.
  - rewrite pd_power_up_out_run. cbv zeta. cbn [events snd].
    eexists _, 0. reflexivity.
  - rewrite ?bind_events, ?bind_result, ?bind_final.
    rewrite (readl_events P SWUCR (final l)). fold v'.
    rewrite pd_power_up_out_run. cbv zeta. cbn [events snd].
    destruct (no_debug pd); cbn [negb].
    + eexists _, 0. reflexivity.
    + rewrite bind_events, readl_events. eexists _, _.
      cbn [events pr_debug snd app]. reflexivity.
Qed.

End PowerUpDetail.

Lemma poll_schedule_footprint pd polls : forall k,
  forallb (pd_power_up_event pd) (poll_schedule (domain_mask pd) k polls)
  = true.
Proof.
  induction polls as [|v polls IH]; intros k; [reflexivity|].
  cbn [poll_schedule forallb pd_power_up_event].
  rewrite forallb_app, IH.
  destruct (Z.land v (domain_mask pd) =? 0); [reflexivity|].
  unfold delay_after_poll. destruct (k <=? 100)%nat; reflexivity.
Qed.

Lemma poll_schedule_quiet mask polls : forall k,
  writes (poll_schedule mask k polls) = []
  /\ reads_of SWUCR (poll_schedule mask k polls) = polls
  /\ existsb is_power_on_msg (poll_schedule mask k polls) = false.
Proof.
  induction polls as [|v polls IH]; intros k; [repeat split; reflexivity|].
  destruct (IH (S k)) as (Hw & Hr & Hm).
  cbn [poll_schedule writes reads_of existsb is_power_on_msg orb].
  change (SWUCR =? SWUCR) with true. cbn iota.
  rewrite writes_app, reads_of_app, existsb_app, Hw, Hr, Hm.
  destruct (Z.land v mask =? 0); [repeat split; reflexivity|].
  unfold delay_after_poll. destruct (k <=? 100)%nat; repeat split; reflexivity.
Qed.

Lemma domain_mask_eqb pd : (domain_mask pd =? domain_mask pd) = true.
Proof. apply Z.eqb_refl. Qed.

Lemma pd_power_down_footprint {H} (P : reg_port H)
    (pd : sh7372_pm_domain) (s : H) :
  forallb (pd_power_down_event pd) (events (pd_power_down P pd s)) = true.
Proof.
  destruct (pd_power_down_run P pd s) as (p & ->).
  destruct (pd_power_down_poll_shape P (domain_mask pd) PSTR_RETRIES
              (port_writel P (domain_mask pd) SPDCR
                 (final (__raw_readl P PSTR s)))) as (-> & _).
  cbn [forallb pd_power_down_event]. rewrite forallb_app.
  assert (Hdbg : forallb (pd_power_down_event pd)
            (if no_debug pd then []
             else [EvReadl PSTR p;
                   EvPrDebug MsgPowerOff (Some (genpd_name pd))
                     (domain_mask pd) p]) = true).
  { destruct (no_debug pd) eqn:Hnd; [reflexivity|].
    cbn [forallb pd_power_down_event].
    now rewrite String.eqb_refl, domain_mask_eqb, Hnd. }
  rewrite Hdbg.
  destruct (Z.land _ _ =? 0); [reflexivity|].
  cbn [forallb pd_power_down_event].
  now rewrite domain_mask_eqb, spdcr_schedule_footprint.
Qed.

Lemma pd_power_up_footprint {H} (P : reg_port H)
    (pd : sh7372_pm_domain) (s : H) :
  forallb (pd_power_up_event pd) (events (pd_power_up P pd s)) = true.
Proof.
  destruct (Z.eqb_spec
              (Z.land (result (__raw_readl P PSTR s)) (domain_mask pd)) 0)
    as [Hclear|Hset].
  + destruct (pd_power_up_run P pd s Hclear) as (p & q & ->).
    set (l := pd_power_up_poll P (domain_mask pd) (2 * PSTR_RETRIES) _).
    destruct (pd_power_up_poll_shape P (domain_mask pd) (2 * PSTR_RETRIES)
                1 (port_writel P (domain_mask pd) SWUCR
                     (final (__raw_readl P PSTR s))) eq_refl)
      as (Hev & _).
    fold l in Hev.
    cbn [forallb pd_power_up_event].
    rewrite !forallb_app, Hev, poll_schedule_footprint, domain_mask_eqb.
    cbn [forallb pd_power_up_event]. rewrite domain_mask_eqb.
    destruct (result l); [reflexivity|].
    cbn [forallb pd_power_up_event].
    destruct (no_debug pd) eqn:Hnd; [reflexivity|].
    cbn [forallb pd_power_up_event].
    now rewrite String.eqb_refl, domain_mask_eqb, Hnd.
  + rewrite (pd_power_up_short_circuit P pd s Hset).
    cbn [events snd forallb pd_power_up_event].
    now rewrite domain_mask_eqb.
Qed.

(** X4. Footprints.  A power-down only reads [PSTR] and [SPDCR], writes
    only the domain's own mask and only to [SPDCR], waits only with
    [cpu_relax], and prints only its "Power off" message, and that only
    without [no_debug].  A power-up only reads [PSTR] and [SWUCR], writes
    only the domain's own mask and only to [SWUCR], and waits only with
    [udelay(10)] or [cpu_relax].  Neither calls the framework, the clocks
    or the CPU primitives. *)
Theorem pd_power_footprints {H} (P : reg_port H)
    (pd : sh7372_pm_domain) (s : H) :
  forallb (pd_power_down_event pd) (events (pd_power_down P pd s)) = true
  /\ forallb (pd_power_up_event pd) (events (pd_power_up P pd s)) = true.
Proof.
  split.
  - apply pd_power_down_footprint.
  - apply pd_power_up_footprint.
Qed.

Lemma footprint_down_writes pd tr :
  forallb (pd_power_down_event pd) tr = true ->
  Forall (fun w => w = (domain_mask pd, SPDCR)) (writes tr).
Proof.
  induction tr as [|e tr IH]; intros Hall; [constructor|].
  cbn [forallb] in Hall. apply andb_prop in Hall as [He Hrest].
  destruct e; cbn [writes]; auto.
  cbn [pd_power_down_event] in He. apply andb_prop in He as [Hv Ha].
  apply Z.eqb_eq in Hv, Ha. subst. constructor; auto.
Qed.

Lemma footprint_up_writes pd tr :
  forallb (pd_power_up_event pd) tr = true ->
  Forall (fun w => w = (domain_mask pd, SWUCR)) (writes tr).
Proof.
  induction tr as [|e tr IH]; intros Hall; [constructor|].
  cbn [forallb] in Hall. apply andb_prop in Hall as [He Hrest].
  destruct e; cbn [writes]; auto.
  cbn [pd_power_up_event] in He. apply andb_prop in He as [Hv Ha].
  apply Z.eqb_eq in Hv, Ha. subst. constructor; auto.
Qed.

Lemma footprint_up_no_genpd_call pd tr :
  forallb (pd_power_up_event pd) tr = true ->
  filter is_genpd_call tr = [].
Proof.
  induction tr as [|e tr IH]; intros Hall; [reflexivity|].
  cbn [forallb] in Hall. apply andb_prop in Hall as [He Hrest].
  destruct e; cbn [filter is_genpd_call]; auto; discriminate.
Qed.

(** The masks of the declared domains are eight different single bits of a
    32-bit register. *)
Lemma sh7372_domains_masks :
  NoDup (map domain_mask sh7372_domains)
  /\ Forall (fun pd => domain_mask pd = 2 ^ bit_shift pd
                       /\ 0 < domain_mask pd < 2 ^ 32) sh7372_domains.
Proof.
  split.
  - vm_compute. repeat constructor; cbn; intuition discriminate.
  - repeat constructor; vm_compute; congruence.
Qed.

(** X5. Isolation.  For two different domains declared in the file, no
    register write made while powering one of them up or down carries the
    other one's bit. *)
Theorem domain_transitions_isolated {H} (P : reg_port H)
    (d1 d2 : sh7372_pm_domain) (s : H) :
  In d1 sh7372_domains -> In d2 sh7372_domains -> d1 <> d2 ->
  Forall (fun w => Z.land (fst w) (domain_mask d2) = 0)
    (writes (events (pd_power_up P d1 s)))
  /\ Forall (fun w => Z.land (fst w) (domain_mask d2) = 0)
       (writes (events (pd_power_down P d1 s))).
Proof.
  intros H1 H2 Hne.
  assert (Hdisj : Z.land (domain_mask d1) (domain_mask d2) = 0).
  { cbn [sh7372_domains In] in H1, H2.
    repeat (destruct H1 as [<-|H1]; [|]); try contradiction;
      repeat (destruct H2 as [<-|H2]; [|]); try contradiction;
      try reflexivity; now elim Hne. }
  pose proof (pd_power_down_footprint P d1 s) as Hdown.
  pose proof (pd_power_up_footprint P d1 s) as Hup.
  apply footprint_down_writes in Hdown. apply footprint_up_writes in Hup.
  split.
  - eapply Forall_impl; [|exact Hup]. intros w ->. exact Hdisj.
  - eapply Forall_impl; [|exact Hdown]. intros w ->. exact Hdisj.
Qed.

Lemma domain_transitions_isolated_witness :
  Forall (fun w => Z.land (fst w) (domain_mask sh7372_a4lc) = 0)
    (writes (events (pd_power_up sim_port sh7372_a3rv
                       (sim_off (Some 1%nat))))).
Proof.
  apply (domain_transitions_isolated sim_port sh7372_a3rv sh7372_a4lc
           (sim_off (Some 1%nat))).
  - cbn. tauto.
  - cbn. tauto.
  - discriminate.
Defined.

(** X6. [pd_power_up] returns 0 or [-EIO], and it returns [-EIO] exactly
    when the status bit was clear at entry and every read of [SWUCR] made by
    the call showed the request bit. *)
Theorem pd_power_up_result {H} (P : reg_port H)
    (pd : sh7372_pm_domain) (s : H) :
  let r := pd_power_up P pd s in
  (result r = 0 \/ result r = - EIO)
  /\ (result r = - EIO <->
      bit_clear (domain_mask pd) (result (__raw_readl P PSTR s))
      /\ Forall (bit_set (domain_mask pd)) (reads_of SWUCR (events r))).
Proof.
  intros r. unfold r.
  destruct (Z.eqb_spec
              (Z.land (result (__raw_readl P PSTR s)) (domain_mask pd)) 0)
    as [Hclear|Hset].
  - destruct (pd_power_up_request P pd s Hclear)
      as (tail & Hev & Hres & Hreads & _).
    cbv zeta in Hev, Hres, Hreads.
    set (l := pd_power_up_poll P (domain_mask pd) (2 * PSTR_RETRIES) _) in *.
    destruct (pd_power_up_poll_shape P (domain_mask pd) (2 * PSTR_RETRIES) 1
                (port_writel P (domain_mask pd) SWUCR
                   (final (__raw_readl P PSTR s))) eq_refl)
      as (_ & Hfalse & Htrue).
    fold l in Hfalse, Htrue.
    rewrite Hres, Hev. cbn [reads_of].
    change (PSTR =? SWUCR) with false. cbn iota.
    rewrite reads_of_app, Hreads.
    destruct (result l) eqn:Hl.
    + split; [now left|]. split; [discriminate|].
      intros [_ Hall].
      destruct (Htrue eq_refl) as (vs & v & Hvs & _ & _ & Hv).
      rewrite Hvs in Hall.
      apply Forall_app in Hall as [Hall _].
      apply Forall_app in Hall as [_ Hall].
      inversion Hall as [|? ? Hbad _]; subst. now elim Hbad.
    + destruct (Hfalse eq_refl) as [_ Hall].
      destruct (Z.eqb_spec (Z.land (result (__raw_readl P SWUCR (final l)))
                              (domain_mask pd)) 0) as [Hz|Hnz];
        cbn [negb].
      * split; [now left|]. split; [discriminate|].
        intros [_ Hstuck]. apply Forall_app in Hstuck as [_ Hlast].
        inversion Hlast as [|? ? Hbad _]; subst. now elim Hbad.
      * split; [now right|]. split; [|reflexivity].
        intros _. split; [exact Hclear|].
        apply Forall_app. split; [exact Hall|]. now constructor.
  - rewrite (pd_power_up_short_circuit P pd s Hset).
    cbn [result fst]. split; [now left|].
    split; [discriminate|]. intros [Hclear _]. now elim Hset.
Qed.

(** X7. When the status bit is clear at entry, [pd_power_up] writes the
    domain's mask to [SWUCR] exactly once, before any poll, and never
    writes again; it reads [SWUCR] at least once and at most 201 times. *)
Theorem pd_power_up_request_once {H} (P : reg_port H)
    (pd : sh7372_pm_domain) (s : H) :
  bit_clear (domain_mask pd) (result (__raw_readl P PSTR s)) ->
  let tr := events (pd_power_up P pd s) in
  writes tr = [(domain_mask pd, SWUCR)]
  /\ (exists v t, tr = EvReadl PSTR v :: EvWritel (domain_mask pd) SWUCR :: t
                  /\ writes t = [])
  /\ (1 <= length (reads_of SWUCR tr) <= 201)%nat.
Proof.
  intros Hclear tr. unfold tr.
  destruct (pd_power_up_request P pd s Hclear)
    as (tail & Hev & _ & Hreads & Hw & _).
  cbv zeta in Hev, Hreads.
  set (l := pd_power_up_poll P (domain_mask pd) (2 * PSTR_RETRIES) _) in *.
  destruct (pd_power_up_poll_shape P (domain_mask pd) (2 * PSTR_RETRIES) 1
              (port_writel P (domain_mask pd) SWUCR
                 (final (__raw_readl P PSTR s))) eq_refl)
    as (Hsched & Hfalse & Htrue).
  fold l in Hsched, Hfalse, Htrue.
  destruct (poll_schedule_quiet (domain_mask pd)
              (reads_of SWUCR (events l)) 1) as (Hlw & _).
  rewrite <- Hsched in Hlw.
  rewrite Hev. cbn [writes reads_of].
  change (PSTR =? SWUCR) with false. cbn iota.
  rewrite writes_app, reads_of_app, Hlw, Hw, Hreads, length_app.
  split; [reflexivity|]. split.
  - eexists _, _. split; [reflexivity|]. now rewrite writes_app, Hlw, Hw.
  - destruct (result l) eqn:Hl.
    + destruct (Htrue eq_refl) as (vs & v & -> & Hlen & _).
      rewrite length_app. cbn. unfold PSTR_RETRIES in Hlen. lia.
    + destruct (Hfalse eq_refl) as [-> _]. cbn. lia.
Qed.

Lemma pd_power_up_request_once_witness :
  writes (events (pd_power_up sim_port sh7372_d4 (sim_off (Some 5%nat))))
  = [(0x8, SWUCR)].
Proof.
  apply (pd_power_up_request_once sim_port sh7372_d4 (sim_off (Some 5%nat))).
  vm_compute; reflexivity.
Defined.

(** X8. The "Power on" message of [pd_power_up] is printed only after the
    loop has run out: a call that made fewer than 201 reads of [SWUCR]
    (status bit already set, or a poll that saw the request bit clear)
    prints no "Power on" message, and neither does any call on a [no_debug]
    domain.  When the loop ran out and [no_debug] is off it is printed,
    whether the call then returns 0 or [-EIO]. *)
Theorem pd_power_up_power_on_message {H} (P : reg_port H)
    (pd : sh7372_pm_domain) (s : H) :
  let tr := events (pd_power_up P pd s) in
  ((length (reads_of SWUCR tr) < 201)%nat ->
   existsb is_power_on_msg tr = false)
  /\ (no_debug pd = true -> existsb is_power_on_msg tr = false)
  /\ (length (reads_of SWUCR tr) = 201%nat -> no_debug pd = false ->
      existsb is_power_on_msg tr = true).
Proof.
  intros tr. unfold tr.
  destruct (Z.eqb_spec
              (Z.land (result (__raw_readl P PSTR s)) (domain_mask pd)) 0)
    as [Hclear|Hset].
  - destruct (pd_power_up_run P pd s Hclear) as (p & q & ->).
    set (l := pd_power_up_poll P (domain_mask pd) (2 * PSTR_RETRIES) _).
    destruct (pd_power_up_poll_shape P (domain_mask pd) (2 * PSTR_RETRIES) 1
                (port_writel P (domain_mask pd) SWUCR
                   (final (__raw_readl P PSTR s))) eq_refl)
      as (Hsched & Hfalse & Htrue).
    fold l in Hsched, Hfalse, Htrue.
    destruct (poll_schedule_quiet (domain_mask pd)
                (reads_of SWUCR (events l)) 1) as (_ & _ & Hq).
    rewrite <- Hsched in Hq.
    cbn [reads_of existsb is_power_on_msg orb].
    change (PSTR =? SWUCR) with false. cbn iota.
    rewrite !reads_of_app, !existsb_app, Hq, !length_app.
    cbn [reads_of existsb is_power_on_msg orb length].
    change (PSTR =? SWUCR) with false. cbn iota.
    rewrite orb_false_r. cbn [length].
    destruct (result l) eqn:Hl.
    + destruct (Htrue eq_refl) as (vs & v & Hvs & Hlen & _).
      rewrite Hvs, length_app. cbn [length reads_of existsb].
      unfold PSTR_RETRIES in Hlen.
      repeat split; auto. intros Hbad. lia.
    + destruct (Hfalse eq_refl) as [Hlen _]. rewrite Hlen.
      cbn [reads_of]. change (SWUCR =? SWUCR) with true. cbn iota.
      destruct (no_debug pd); cbn.
      * repeat split; auto; discriminate.
      * repeat split; auto; try discriminate. intros Hbad. lia.
  - rewrite (pd_power_up_short_circuit P pd s Hset).
    cbn. change (PSTR =? SWUCR) with false. cbn.
    repeat split; auto. discriminate.
Qed.

Lemma pd_power_up_power_on_message_witness :
  existsb is_power_on_msg
    (events (pd_power_up sim_port sh7372_a4r (sim_off (Some 3%nat)))) = false
  /\ existsb is_power_on_msg
       (events (pd_power_up sim_port sh7372_a4r (sim_off (Some 200%nat))))
     = true.
Proof.
  split.
  - destruct (pd_power_up_power_on_message sim_port sh7372_a4r
                (sim_off (Some 3%nat))) as (Hearly & _).
    apply Hearly. vm_compute. lia.
  - destruct (pd_power_up_power_on_message sim_port sh7372_a4r
                (sim_off (Some 200%nat))) as (_ & _ & Hlate).
    apply Hlate; vm_compute; reflexivity.
Defined.

(** ** More on the A3RV / A4LC pair *)

(** X9. [pd_power_up_a3rv] discards what [pm_genpd_poweron] returns: its
    result is the child's own result under every framework, so it reports
    success even when powering A4LC on failed.  On whatever domain it is
    called, it makes exactly one framework call, for A4LC, and writes no
    register beyond the child's own request. *)
Theorem pd_power_up_a3rv_ignores_parent_result {H} (P : reg_port H)
    (F : genpd_framework H) (genpd : sh7372_pm_domain) (s : H) :
  let c := pd_power_up P genpd s in
  let r := pd_power_up_a3rv P F genpd s in
  result r = result c
  /\ filter is_genpd_call (events r)
     = [EvGenpdPoweron "A4LC"
          (fst (fw_pm_genpd_poweron F sh7372_a4lc (final c)))]
  /\ writes (events r) = writes (events c).
Proof.
  intros c r. unfold r. rewrite pd_power_up_a3rv_run. cbv zeta. fold c.
  cbn [result events fst snd].
  pose proof (pd_power_up_footprint P genpd s) as Hup. fold c in Hup.
  rewrite filter_app, writes_app, (footprint_up_no_genpd_call genpd _ Hup).
  cbn. now rewrite app_nil_r.
Qed.

(** X10. [pd_power_down_a3rv] returns 0 on every domain and every machine,
    and makes exactly one framework call: it queues the power-off work for
    A4LC, also when the domain it was called on is not A3RV. *)
Theorem pd_power_down_a3rv_never_fails {H} (P : reg_port H)
    (F : genpd_framework H) (genpd : sh7372_pm_domain) (s : H) :
  let r := pd_power_down_a3rv P F genpd s in
  result r = 0
  /\ filter is_genpd_call (events r) = [EvGenpdQueuePowerOffWork "A4LC"]
  /\ writes (events r) = writes (events (pd_power_down P genpd s)).
Proof.
  intros r. unfold r. rewrite pd_power_down_a3rv_run. cbv zeta.
  cbn [result events fst snd].
  destruct (pd_power_down_writes P genpd s) as [_ Hf].
  rewrite filter_app, writes_app, Hf. cbn. rewrite app_nil_r.
  repeat split.
  unfold pd_power_down. now rewrite !bind_result.
Qed.

(** X11. Neither transition consults [stay_on] or the governor: two
    descriptors with the same name, bit and [no_debug] flag behave alike.
    So [pd_power_down] requests the power-down of a [stay_on] domain like
    that of any other, and [sh7372_a3sp_init] changes nothing about how
    A3SP is powered up or down. *)
Theorem transitions_ignore_stay_on {H} (P : reg_port H)
    (pd pd' : sh7372_pm_domain) (console_suspend_enabled : bool) (s : H) :
  genpd_name pd = genpd_name pd' ->
  bit_shift pd = bit_shift pd' ->
  no_debug pd = no_debug pd' ->
  pd_power_down P pd s = pd_power_down P pd' s
  /\ pd_power_up P pd s = pd_power_up P pd' s
  /\ pd_power_down P (sh7372_a3sp_init console_suspend_enabled pd) s
     = pd_power_down P pd s
  /\ pd_power_up P (sh7372_a3sp_init console_suspend_enabled pd) s
     = pd_power_up P pd s.
Proof.
  intros Hname Hshift Hdebug.
  assert (Hgen : forall a b,
            genpd_name a = genpd_name b -> bit_shift a = bit_shift b ->
            no_debug a = no_debug b ->
            pd_power_down P a s = pd_power_down P b s
            /\ pd_power_up P a s = pd_power_up P b s).
  { intros a b Ha Hb Hc. unfold pd_power_down, pd_power_up, domain_mask.
    rewrite Ha, Hb, Hc. split; reflexivity. }
  destruct (Hgen pd pd' Hname Hshift Hdebug) as [Hdown Hup].
  destruct (Hgen (sh7372_a3sp_init console_suspend_enabled pd) pd
              eq_refl eq_refl eq_refl) as [Hdown' Hup'].
  repeat split; assumption.
Qed.

(** With [no_console_suspend], A3SP is marked [stay_on], and a power-down
    of it is requested all the same. *)
Lemma transitions_ignore_stay_on_witness :
  stay_on (sh7372_a3sp_init false sh7372_a3sp) = true
  /\ writes (events (pd_power_down sim_port
                       (sh7372_a3sp_init false sh7372_a3sp)
                       (sim_on 0x800 (Some 0%nat))))
     = [(0x800, SPDCR)].
Proof.
  split; [reflexivity|].
  destruct (transitions_ignore_stay_on sim_port sh7372_a3sp sh7372_a3sp
              false (sim_on 0x800 (Some 0%nat)) eq_refl eq_refl eq_refl)
    as (_ & _ & Hinit & _).
  rewrite Hinit. vm_compute; reflexivity.
Defined.

(** ** More on device stop/start *)

(** X12. [sh7372_stop_dev] returns 0 only when the clocks were suspended
    successfully, after a stop hook, if there is one, that succeeded: the
    trace is then the successful hook, if any, followed by the successful
    [pm_clk_suspend], and nothing else. *)
Theorem sh7372_stop_dev_success {H} (F : genpd_framework H)
    (dev : device H) (s : H) :
  result (sh7372_stop_dev F dev s) = 0 ->
  events (sh7372_stop_dev F dev s)
  = (match ops_stop dev with
     | Some _ => [EvOpsStop (dev_name dev) 0]
     | None => []
     end) ++ [EvPmClkSuspend (dev_name dev) 0].
Proof.
  unfold sh7372_stop_dev, bind, call_stop, pm_clk_suspend, ret, result,
    events.
  destruct (ops_stop dev) as [stop|].
  - destruct (stop s) as [r s1].
    destruct (Z.eqb_spec r 0) as [->|Hr]; cbn [negb fst snd app].
    + destruct (fw_pm_clk_suspend F dev s1) as [r' s2]; cbn.
      now intros ->.
    + intros Hbad. now elim Hr.
  - destruct (fw_pm_clk_suspend F dev s) as [r' s2]; cbn. now intros ->.
Qed.

Lemma sh7372_stop_dev_success_witness :
  events (sh7372_stop_dev (sim_framework 0 0) (sim_device (Some 0) None)
            (sim_off None))
  = [EvOpsStop "sh-sci.0" 0; EvPmClkSuspend "sh-sci.0" 0].
Proof.
  apply (sh7372_stop_dev_success (sim_framework 0 0)
           (sim_device (Some 0) None) (sim_off None)).
  reflexivity.
Defined.

(** X13. [sh7372_start_dev] returns 0 only when the clocks were resumed
    successfully and the start hook, if there is one, then succeeded; a
    non-zero result is the return value of the last call it made. *)
Theorem sh7372_start_dev_success {H} (F : genpd_framework H)
    (dev : device H) (s : H) :
  let r := sh7372_start_dev F dev s in
  (result r = 0 ->
   events r
   = EvPmClkResume (dev_name dev) 0
       :: match ops_start dev with
          | Some _ => [EvOpsStart (dev_name dev) 0]
          | None => []
          end)
  /\ (result r <> 0 ->
      exists t,
        events r = t ++ [EvPmClkResume (dev_name dev) (result r)]
        \/ events r = t ++ [EvOpsStart (dev_name dev) (result r)]).
Proof.
  cbv zeta.
  unfold sh7372_start_dev, bind, call_start, pm_clk_resume, ret, result,
    events.
  destruct (fw_pm_clk_resume F dev s) as [r s1].
  destruct (Z.eqb_spec r 0) as [->|Hr]; cbn [negb fst snd app].
  - destruct (ops_start dev) as [start|].
    + destruct (start s1) as [r' s2]; cbn. split.
      * now intros ->.
      * intros _. exists [EvPmClkResume (dev_name dev) 0]. now right.
    + cbn. split; [reflexivity|]. intros Hbad. now elim Hbad.
  - split.
    + intros Hbad. now elim Hr.
    + intros _. exists []. now left.
Qed.

Lemma sh7372_start_dev_success_witness :
  events (sh7372_start_dev (sim_framework 0 0) (sim_device None (Some 0))
            (sim_off None))
  = [EvPmClkResume "sh-sci.0" 0; EvOpsStart "sh-sci.0" 0].
Proof.
  destruct (sh7372_start_dev_success (sim_framework 0 0)
              (sim_device None (Some 0)) (sim_off None)) as [Hok _].
  apply Hok. reflexivity.
Defined.

(** ** More on core standby *)

(** X14. However the core wakes up, [sh7372_enter_core_standby] ends by
    writing 0 to [SYSTBCR] and then 0 to [SBAR], and it starts by arming
    the reset vector and clearing the marker before the one call of
    [sh7372_cpu_suspend].  [sh7372_enter_suspend] produces the same events,
    leaves the same machine state and returns 0 for every suspend
    state. *)
Theorem core_standby_always_disarms {H} (P : reg_port H) (C : cpu_ops H)
    (suspend_state : Z) (s : H) :
  let r := sh7372_enter_core_standby P C s in
  let r' := sh7372_enter_suspend P C suspend_state s in
  (exists mid,
     events r
     = [EvWritel 0 APARMBAREA; EvWritel (cpu_resume_pa C) SBAR;
        EvWritel 0x10 SYSTBCR; EvWritel 0 (SMFRAM + 0x3c);
        EvCpuSuspend; EvCpuInit]
       ++ mid ++ [EvWritel 0 SYSTBCR; EvWritel 0 SBAR]
     /\ existsb (fun e => match e with
                          | EvCpuSuspend | EvCpuInit => true
                          | _ => false
                          end) mid = false)
  /\ result r' = 0 /\ events r' = events r /\ final r' = final r.
Proof.
  intros r r'.
  assert (Hr : events r
               = events (core_standby_sleep P C SMFRAM s)
                 ++ events (core_standby_recover P C SMFRAM
                              (final (core_standby_sleep P C SMFRAM s)))
                 ++ [EvWritel 0 SYSTBCR; EvWritel 0 SBAR]).
  { unfold r, sh7372_enter_core_standby. cbv zeta.
    now rewrite !bind_events. }
  split.
  - eexists. rewrite Hr, core_standby_sleep_events.
    split; [reflexivity|].
    rewrite core_standby_recover_run. cbv zeta.
    destruct (_ =? 0); reflexivity.
  - unfold r', sh7372_enter_suspend.
    rewrite bind_result, bind_events, bind_final. fold r.
    cbn [result events final ret fst snd]. now rewrite app_nil_r.
Qed.

(** ** CPU idle registration *)

Lemma array_set_length {A} (a : list A) x : forall i,
  length (array_set a i x) = length a.
Proof.
  induction a as [|y a IH]; intros [|i]; cbn; auto.
Qed.

Lemma array_set_same {A} (a : list A) x : forall i,
  (i < length a)%nat -> nth_error (array_set a i x) i = Some x.
Proof.
  induction a as [|y a IH]; intros [|i] Hi; cbn in *; try lia; auto.
  apply IH. lia.
Qed.

Lemma array_set_other {A} (a : list A) x : forall i j,
  i <> j -> nth_error (array_set a i x) j = nth_error a j.
Proof.
  induction a as [|y a IH]; intros [|i] [|j] Hij; cbn; auto.
  now elim Hij.
Qed.

Lemma substring_whole s : forall n,
  (String.length s <= n)%nat -> substring 0 n s = s.
Proof.
  induction s as [|c s IH]; intros [|n] Hn; cbn in *; try lia; auto.
  f_equal. apply IH. lia.
Qed.

(** X15. With [state_count] inside both arrays, [sh7372_cpuidle_setup]
    registers one more state: [state_count] grows by one, the slot at the
    old [state_count] holds the core standby state (latency 10, residency
    30, power 1, flags exactly [CPUIDLE_FLAG_TIME_VALID] whatever they were
    before, and the full name and description when the arrays are long
    enough), the mode table's slot at that index is
    [sh7372_enter_core_standby], and every other slot of both arrays is as
    it was. *)
Theorem sh7372_cpuidle_setup_registers {H} (P : reg_port H) (C : cpu_ops H)
    (CPUIDLE_NAME_LEN CPUIDLE_DESC_LEN : nat) (CPUIDLE_FLAG_TIME_VALID : Z)
    (dev : Cpuidle.cpuidle_device) (modes : list (M H unit)) :
  let i := Z.to_nat (Cpuidle.state_count dev) in
  0 <= Cpuidle.state_count dev ->
  (i < length (Cpuidle.states dev))%nat ->
  (i < length modes)%nat ->
  let out := sh7372_cpuidle_setup P C CPUIDLE_NAME_LEN CPUIDLE_DESC_LEN
               CPUIDLE_FLAG_TIME_VALID dev modes in
  Cpuidle.state_count (fst out) = Cpuidle.state_count dev + 1
  /\ length (Cpuidle.states (fst out)) = length (Cpuidle.states dev)
  /\ length (snd out) = length modes
  /\ (forall j, j <> i ->
        nth_error (Cpuidle.states (fst out)) j
        = nth_error (Cpuidle.states dev) j
        /\ nth_error (snd out) j = nth_error modes j)
  /\ nth_error (snd out) i = Some (sh7372_enter_core_standby P C)
  /\ exists state,
       nth_error (Cpuidle.states (fst out)) i = Some state
       /\ Cpuidle.exit_latency state = 10
       /\ Cpuidle.target_residency state = 30
       /\ Cpuidle.power_usage state = 1
       /\ Cpuidle.flags state = CPUIDLE_FLAG_TIME_VALID
       /\ ((3 <= CPUIDLE_NAME_LEN)%nat -> Cpuidle.name state = "C2"%string)
       /\ ((18 <= CPUIDLE_DESC_LEN)%nat ->
           Cpuidle.desc state = "Core Standby Mode"%string).
Proof.
  intros i Hpos Hstates Hmodes out. unfold out, sh7372_cpuidle_setup.
  cbv zeta. fold i.
  apply Z.leb_le in Hpos. rewrite Hpos.
  destruct (nth_error (Cpuidle.states dev) i) as [old|] eqn:Hold;
    [|apply nth_error_None in Hold; lia].
  cbn [fst snd Cpuidle.states Cpuidle.state_count].
  rewrite !array_set_length.
  repeat split.
  - now apply array_set_other.
  - now apply array_set_other.
  - now apply array_set_same.
  - eexists. split; [now apply array_set_same|].
    cbn [Cpuidle.exit_latency Cpuidle.target_residency Cpuidle.power_usage
         Cpuidle.flags Cpuidle.name Cpuidle.desc].
    repeat split.
    + intros Hlen. destruct CPUIDLE_NAME_LEN as [|k]; [lia|].
      cbn [snprintf]. apply substring_whole. cbn. lia.
    + intros Hlen. apply substring_whole. cbn. lia.
Qed.

Lemma sh7372_cpuidle_setup_registers_witness :
  let wfi := {| Cpuidle.name := "C1"; Cpuidle.desc := "WFI";
                Cpuidle.flags := 0xff; Cpuidle.exit_latency := 1;
                Cpuidle.power_usage := 3;
                Cpuidle.target_residency := 2 |} in
  Cpuidle.state_count
    (fst (sh7372_cpuidle_setup sim_port sim_cpu_gated 16 32 1
            {| Cpuidle.states := repeat wfi 8; Cpuidle.state_count := 1 |}
            (repeat (ret tt) 8)))
  = 2.
Proof.
  cbv zeta.
  apply (sh7372_cpuidle_setup_registers sim_port sim_cpu_gated 16 32 1
           {| Cpuidle.states := repeat _ 8; Cpuidle.state_count := 1 |}
           (repeat (ret tt) 8)).
  - cbn. lia.
  - cbn. lia.
  - cbn. lia.
Defined.
